(** * Equity Research News Tool: the Streamlit script [app.py]

    A shallow embedding of the event handlers of [app.py] (the sidebar
    "Clear all caches" button, the "Run" button, the history panel and the
    developer tools) together with the two memoisation tiers that sit
    between the page and the two upstream services.

    Conventions.
    - A Python [str] is a sequence of Unicode code points: [pystr] is
      [list N].  ASCII literals are written [lit "..."]; the em dash of the
      source is the code point 8212 and a newline is 10.
    - A script run executes at one instant [now] (seconds); it threads an
      [AppState] (both cache tiers, the session history, the log of
      upstream calls) and emits a list of [Widget]s, in page order.
    - An exception is a value of [exn]; [try_except] is [try ... except
      Exception].
    - The functions imported from [langchain_config] are not part of the
      sources at hand: the two upstream services and [estimate_tokens] are
      parameters of the development, the memoised wrappers are modelled
      from the specification and marked as such. *)

From Stdlib Require Import ZArith List Lia DecimalString.
From stdpp Require Import gmap list strings.
Import ListNotations.

Local Open Scope Z_scope.

(** ** Python strings *)

Abbreviation pystr := (list N).

Definition lit (s : string) : pystr :=
  map Ascii.N_of_ascii (String.list_ascii_of_string s).

Definition emdash : pystr := [8212%N].
Definition newline : pystr := [10%N].

(** [str(n)] for an integer. *)
Definition str_of_Z (z : Z) : pystr :=
  lit (NilEmpty.string_of_int (Z.to_int z)).

Arguments lit : simpl never.
Arguments str_of_Z : simpl never.

(** [str.isspace] on one code point (CPython's [_PyUnicode_IsWhitespace]). *)
Definition isspace (c : N) : bool :=
  ((9 <=? c) && (c <=? 13) || (28 <=? c) && (c <=? 32)
   || (c =? 133) || (c =? 160) || (c =? 5760)
   || (8192 <=? c) && (c <=? 8202)
   || (c =? 8232) || (c =? 8233) || (c =? 8239) || (c =? 8287)
   || (c =? 12288))%N.

Fixpoint lstrip (s : pystr) : pystr :=
  match s with
  | c :: s' => if isspace c then lstrip s' else s
  | [] => []
  end.

Definition rstrip (s : pystr) : pystr := rev (lstrip (rev s)).

(** [s.strip()] *)
Definition strip (s : pystr) : pystr := rstrip (lstrip s).

(** Truth value of a string: non-empty. *)
Definition truthy (s : pystr) : bool :=
  match s with [] => false | _ :: _ => true end.

(** [x or d] where [x] is a string or [None]. *)
Definition py_or (x : option pystr) (d : pystr) : pystr :=
  match x with
  | Some s => if truthy s then s else d
  | None => d
  end.

(** [sep.join(xs)] *)
Fixpoint join (sep : pystr) (xs : list pystr) : pystr :=
  match xs with
  | [] => []
  | x :: rest =>
      match rest with
      | [] => x
      | _ :: _ => x ++ sep ++ join sep rest
      end
  end.

(** ** Articles *)

(** An article as the news API returns it: every field may be absent or
    [None].  [source] is a nested dictionary from field names to optional
    strings. *)
Record Article := {
  title : option pystr;
  description : option pystr;
  source : option (gmap pystr (option pystr));
  url : option pystr
}.

(** The body of the list comprehension of lines 101-103:
    [(a.get("title") or "") + " — " + (a.get("description") or "")]. *)
Definition article_text (a : Article) : pystr :=
  py_or (title a) [] ++ (lit " " ++ emdash ++ lit " ") ++ py_or (description a) [].

(** [concat_text], lines 101-103. *)
Definition concat_text (articles : list Article) : pystr :=
  join (newline ++ newline) (map article_text articles).

(** ** Application state and effects *)

(** One call to an upstream service. *)
Inductive Call :=
| FetchCall (q : pystr) (n : Z)
| LLMCall (text : pystr).

(** What a script run puts on the page (and into the log), in order. *)
Inductive Widget :=
| StTitle (body : pystr)
| StWarning (msg : pystr)
| StError (msg : pystr)
| StInfo (msg : pystr)
| StSuccess (msg : pystr)
| StMarkdown (body : pystr)
| StWrite (body : pystr)
| StSpinner (msg : pystr)
| StDownloadButton (label data file_name : pystr)
| LogException (msg : pystr).

Inductive exn :=
| FetchError (msg : pystr)
| SummarizationError (msg : pystr)
| OtherError (msg : pystr).

(** [str(e)] *)
Definition exn_msg (e : exn) : pystr :=
  match e with
  | FetchError m | SummarizationError m | OtherError m => m
  end.

Inductive result (A : Type) :=
| Ok (a : A)
| Raise (e : exn).
Arguments Ok {A} a.
Arguments Raise {A} e.

(** The process-wide and session-wide mutable state.
    - [outer]: the store of [st.cache_data] for [get_summary_cached_ui]:
      key [(query, max_articles)], value and the instant it was stored;
    - [inner]: the module-level cache of [langchain_config];
    - [history]: [st.session_state.history], [None] while the key
      "history" is not in the session state;
    - [calls]: the upstream calls made so far, oldest first. *)
Record AppState := mkState {
  outer : gmap (pystr * Z) (pystr * Z);
  inner : gmap (pystr * Z) pystr;
  history : option (list (pystr * pystr));
  calls : list Call
}.

Definition init_state : AppState :=
  {| outer := ∅; inner := ∅; history := None; calls := [] |}.

Definition set_outer (o : gmap (pystr * Z) (pystr * Z)) (s : AppState) : AppState :=
  {| outer := o; inner := inner s; history := history s; calls := calls s |}.

Definition set_inner (i : gmap (pystr * Z) pystr) (s : AppState) : AppState :=
  {| outer := outer s; inner := i; history := history s; calls := calls s |}.

Definition set_history (h : option (list (pystr * pystr))) (s : AppState) : AppState :=
  {| outer := outer s; inner := inner s; history := h; calls := calls s |}.

Definition log_call (c : Call) (s : AppState) : AppState :=
  {| outer := outer s; inner := inner s; history := history s;
     calls := calls s ++ [c] |}.

(** A computation of the script: it may raise, it updates the state and
    it emits widgets. *)
Definition App (A : Type) : Type := AppState -> result A * AppState * list Widget.

Definition ret {A} (a : A) : App A := fun s => (Ok a, s, []).

Definition bind {A B} (m : App A) (k : A -> App B) : App B := fun s =>
  match m s with
  | (Ok a, s1, w1) =>
      match k a s1 with
      | (r, s2, w2) => (r, s2, w1 ++ w2)
      end
  | (Raise e, s1, w1) => (Raise e, s1, w1)
  end.

(** [try: m  except Exception as e: h e] *)
Definition try_except {A} (m : App A) (h : exn -> App A) : App A := fun s =>
  match m s with
  | (Ok a, s1, w1) => (Ok a, s1, w1)
  | (Raise e, s1, w1) =>
      match h e s1 with
      | (r, s2, w2) => (r, s2, w1 ++ w2)
      end
  end.

Definition emit (w : Widget) : App unit := fun s => (Ok tt, s, [w]).

Definition result_of {A} (x : result A * AppState * list Widget) : result A := fst (fst x).
Definition state_of {A} (x : result A * AppState * list Widget) : AppState := snd (fst x).
Definition widgets_of {A} (x : result A * AppState * list Widget) : list Widget := snd x.

Arguments result_of {A} !x /.
Arguments state_of {A} !x /.
Arguments widgets_of {A} !x /.

Declare Scope app_scope.
Delimit Scope app_scope with app.
Notation "'let*' x ':=' m 'in' k" := (bind m (fun x => k))
  (at level 10, x name, m at level 100, k at level 200) : app_scope.
Notation "m '>>' k" := (bind m (fun _ => k))
  (at level 100, k at level 200, right associativity) : app_scope.
Local Open Scope app_scope.

(** [for x in xs: f x] *)
Fixpoint for_each {A} (xs : list A) (f : A -> App unit) : App unit :=
  match xs with
  | [] => ret tt
  | x :: rest => f x >> for_each rest f
  end.

(** ** Page primitives *)

Definition st_title (m : pystr) : App unit := emit (StTitle m).
Definition st_warning (m : pystr) : App unit := emit (StWarning m).
Definition st_error (m : pystr) : App unit := emit (StError m).
Definition st_info (m : pystr) : App unit := emit (StInfo m).
Definition st_success (m : pystr) : App unit := emit (StSuccess m).
Definition st_markdown (m : pystr) : App unit := emit (StMarkdown m).
Definition st_write (m : pystr) : App unit := emit (StWrite m).
Definition st_spinner (m : pystr) : App unit := emit (StSpinner m).
Definition st_download_button (label data file_name : pystr) : App unit :=
  emit (StDownloadButton label data file_name).
Definition logger_exception (m : pystr) : App unit := emit (LogException m).

(** The values of the widgets for one script run.  The three buttons are
    [True] in the run their click triggers. *)
Record Inputs := mkInputs {
  max_articles : Z;
  date_from : option Z;
  date_to : option Z;
  cache_ttl_minutes : Z;
  clear_all_pressed : bool;
  query : pystr;
  run_pressed : bool;
  clear_streamlit_pressed : bool
}.

Definition with_cache_ttl_minutes (m : Z) (i : Inputs) : Inputs :=
  {| max_articles := max_articles i; date_from := date_from i;
     date_to := date_to i; cache_ttl_minutes := m;
     clear_all_pressed := clear_all_pressed i; query := query i;
     run_pressed := run_pressed i;
     clear_streamlit_pressed := clear_streamlit_pressed i |}.

Definition with_dates (f t : option Z) (i : Inputs) : Inputs :=
  {| max_articles := max_articles i; date_from := f;
     date_to := t; cache_ttl_minutes := cache_ttl_minutes i;
     clear_all_pressed := clear_all_pressed i; query := query i;
     run_pressed := run_pressed i;
     clear_streamlit_pressed := clear_streamlit_pressed i |}.

(** ** The Streamlit data cache *)

(** An entry stored at [t0] with lifetime [ttl] is served at [now] while
    [now < t0 + ttl]. *)
Definition outer_lookup (ttl now : Z) (k : pystr * Z)
    (o : gmap (pystr * Z) (pystr * Z)) : option pystr :=
  match o !! k with
  | Some (v, t0) => if now <? t0 + ttl then Some v else None
  | None => None
  end.

(** [@st.cache_data(ttl=ttl)] applied to a function of [(query,
    max_articles)]: a live entry is returned as it is; otherwise the
    function runs and, when it returns, its value is stored under the
    key with the current instant.  An exception stores nothing. *)
Definition st_cache_data (ttl : Z) (f : pystr -> Z -> App pystr)
    (now : Z) (q : pystr) (n : Z) : App pystr := fun s =>
  match outer_lookup ttl now (q, n) (outer s) with
  | Some v => (Ok v, s, [])
  | None =>
      match f q n s with
      | (Ok v, s1, w1) => (Ok v, set_outer (<[(q, n) := (v, now)]> (outer s1)) s1, w1)
      | (Raise e, s1, w1) => (Raise e, s1, w1)
      end
  end.

(** [st.cache_data.clear()] *)
Definition st_cache_data_clear : App unit := fun s => (Ok tt, set_outer ∅ s, []).

(** ** Sample services, for the examples *)

Definition acme_article : Article :=
  {| title := Some (lit "Acme beats estimates");
     description := Some (lit "Quarterly revenue up");
     source := Some {[ lit "name" := Some (lit "Newswire") ]};
     url := Some (lit "https://example.com/acme") |}.

(** A news service that always finds one article, one that finds none and
    one that is out of quota. *)
Definition one_article_news : nat -> pystr -> Z -> pystr + list Article :=
  fun _ _ _ => inr [acme_article].
Definition no_article_news : nat -> pystr -> Z -> pystr + list Article :=
  fun _ _ _ => inr [].
Definition failing_news : nat -> pystr -> Z -> pystr + list Article :=
  fun _ _ _ => inl (lit "quota exhausted").

(** An LLM service that answers and one that is down. *)
Definition answering_llm : nat -> pystr -> pystr + pystr :=
  fun _ _ => inr (lit "Acme had a strong quarter.").
Definition failing_llm : nat -> pystr -> pystr + pystr :=
  fun _ _ => inl (lit "rate limit").

(** Two estimators for the examples: a quarter of the length, and one
    that always raises. *)
Definition quarter_length (text : pystr) : result Z :=
  Ok (Z.of_nat (length text) / 4).
Definition raising_estimate (text : pystr) : result Z :=
  Raise (OtherError (lit "no tokenizer")).

Definition acme_inputs : Inputs :=
  {| max_articles := 5; date_from := None; date_to := None;
     cache_ttl_minutes := 60; clear_all_pressed := false;
     query := lit "Acme Corp"; run_pressed := true;
     clear_streamlit_pressed := false |}.

(** [m] keeps the state property [P]. *)
Definition preserves {A} (P : AppState -> Prop) (m : App A) : Prop :=
  forall s, P s -> P (state_of (m s)).

(** [m] only writes to the page: it returns and leaves the state alone. *)
Definition page_only (m : App unit) : Prop :=
  forall s, result_of (m s) = Ok tt /\ state_of (m s) = s.

(** [P] speaks of the two cache tiers only. *)
Definition cache_prop (P : AppState -> Prop) : Prop :=
  forall s s', outer s = outer s' -> inner s = inner s' -> P s -> P s'.

(** ** Auxiliary notions for the further properties *)

(** The history as a list: no "history" key counts as no entry. *)
Definition history_list (s : AppState) : list (pystr * pystr) :=
  default [] (history s).

Definition is_llm_call (c : Call) : bool :=
  match c with
  | LLMCall _ => true
  | FetchCall _ _ => false
  end.

(** The summary as the history panel shows it, line 143:
    [h["summary"][:300] + ("..." if len(h["summary"]) > 300 else "")]. *)
Definition summary_preview (summary : pystr) : pystr :=
  firstn 300 summary ++ (if (300 <? length summary)%nat then lit "..." else []).

(** An LLM service that answers with the empty string. *)
Definition silent_llm : nat -> pystr -> pystr + pystr :=
  fun _ _ => inr [].

(** A news service that finds one article on the first call and is out of
    quota from then on. *)
Definition flaky_news : nat -> pystr -> Z -> pystr + list Article :=
  fun tick _ _ =>
    match tick with
    | O => inr [acme_article]
    | S _ => inl (lit "quota exhausted")
    end.

(** [m] never raises. *)
Definition returns {A} (m : App A) : Prop :=
  forall s, exists a, result_of (m s) = Ok a.

(** A news service whose first answer is an article without any text and
    whose later answers are the sample article. *)
Definition changing_news : nat -> pystr -> Z -> pystr + list Article :=
  fun tick _ _ =>
    match tick with
    | O => inr [ {| title := None; description := None; source := None; url := None |} ]
    | S _ => inr [acme_article]
    end.

(** The sample inputs with "Clear Streamlit cache only" pressed instead of
    "Run". *)
Definition dev_inputs : Inputs :=
  {| max_articles := 5; date_from := None; date_to := None;
     cache_ttl_minutes := 60; clear_all_pressed := false;
     query := lit "Acme Corp"; run_pressed := false;
     clear_streamlit_pressed := true |}.

(** ** The program, over its upstream services *)

Section App.

(** The news search service: the outcome of the call made when [tick]
    upstream calls precede it, either a failure message or the articles. *)
Variable news_search : nat -> pystr -> Z -> pystr + list Article.

(** The LLM service, in the same way: a failure message or the summary. *)
Variable llm_summarize : nat -> pystr -> pystr + pystr.

(** [langchain_config.estimate_tokens]: an integer, or an exception. *)
Variable estimate_tokens : pystr -> result Z.

(** *** [langchain_config] *)

(** Modelled from the spec: [get_news_articles] of [langchain_config], the
    Fetcher of section 4.1: one call to the news search service, no retry;
    an empty sequence is a result, a failure is a [FetchError] carrying
    the message. *)
Definition get_news_articles (q : pystr) (n : Z) : App (list Article) := fun s =>
  match news_search (length (calls s)) q n with
  | inr articles => (Ok articles, log_call (FetchCall q n) s, [])
  | inl msg => (Raise (FetchError msg), log_call (FetchCall q n) s, [])
  end.

(** Modelled from the spec: [summarize_articles_llm] of [langchain_config],
    the LLM summarization call of sections 4.3 and 6: the concatenated text
    goes to the service; a failure is a [SummarizationError]. *)
Definition summarize_articles_llm (text : pystr) : App pystr := fun s =>
  match llm_summarize (length (calls s)) text with
  | inr summary => (Ok summary, log_call (LLMCall text) s, [])
  | inl msg => (Raise (SummarizationError msg), log_call (LLMCall text) s, [])
  end.

(** Modelled from the spec: [get_summary] of [langchain_config], section
    4.3: fetch the articles, concatenate titles and descriptions, pass the
    concatenation to the LLM call, return its text. *)
Definition get_summary (q : pystr) (n : Z) : App pystr :=
  let* articles := get_news_articles q n in
  summarize_articles_llm (concat_text articles).

(** Modelled from the spec: [get_summary_cached_module] of
    [langchain_config], section 4.3: the memoised wrapper of [get_summary],
    keyed by the exact pair, entries of unbounded lifetime; a failure
    stores nothing. *)
Definition get_summary_cached_module (q : pystr) (n : Z) : App pystr := fun s =>
  match inner s !! (q, n) with
  | Some v => (Ok v, s, [])
  | None =>
      match get_summary q n s with
      | (Ok v, s1, w1) => (Ok v, set_inner (<[(q, n) := v]> (inner s1)) s1, w1)
      | (Raise e, s1, w1) => (Raise e, s1, w1)
      end
  end.

(** Modelled from the spec: [clear_module_cache] of [langchain_config]:
    the explicit clear of the inner tier. *)
Definition clear_module_cache : App unit := fun s => (Ok tt, set_inner ∅ s, []).

(** *** [app.py] *)

(** Lines 44-51, the body of the "Clear all caches" button. *)
Definition clear_all_caches : App unit :=
  try_except st_cache_data_clear (fun _ => ret tt) >>
  clear_module_cache >>
  st_success (lit "Cleared Streamlit cache and module cache.").

(** Line 44, the button itself. *)
Definition clear_all_button (inp : Inputs) : App unit :=
  if clear_all_pressed inp then clear_all_caches else ret tt.

(** Lines 28-51.  The slider, the date inputs and the number input are
    read through [Inputs]. *)
Definition sidebar (inp : Inputs) : App unit :=
  st_markdown (lit "## Options") >>
  st_markdown (lit "---") >>
  st_write (lit "Tip: keep `max articles` low while developing to save tokens.") >>
  st_markdown (lit "---") >>
  clear_all_button inp.

(** Line 54: the lifetime given to [st.cache_data], [60 * 60 * 24]. *)
Definition ui_ttl : Z := 60 * 60 * 24.

(** Lines 54-57. *)
Definition get_summary_cached_ui : Z -> pystr -> Z -> App pystr :=
  st_cache_data ui_ttl (fun query max_articles =>
    get_summary_cached_module query max_articles).

(** Line 92 and its rendering inside the f-strings of lines 95 and 97:
    [a.get("source", {}).get("name") if a.get("source") else
    a.get("source")]. *)
Definition article_src (a : Article) : pystr :=
  match source a with
  | Some d =>
      if decide (d = ∅) then lit "{}"
      else match d !! lit "name" with
           | Some (Some name) => name
           | _ => lit "None"
           end
  | None => lit "None"
  end.

(** Lines 91-97, the body of the loop over the fetched articles. *)
Definition show_article (a : Article) : App unit :=
  let title := py_or (title a) (lit "<no title>") in
  let src := article_src a in
  match url a with
  | Some (c :: u) =>
      st_write (lit "- [" ++ title ++ lit "](" ++ (c :: u) ++ lit ") " ++ emdash
                ++ lit " *" ++ src ++ lit "*")
  | _ =>
      st_write (lit "- " ++ title ++ lit " " ++ emdash ++ lit " *" ++ src ++ lit "*")
  end.

(** Lines 88-97. *)
Definition show_articles (articles : list Article) : App unit :=
  st_markdown (lit "### Fetched articles (" ++ str_of_Z (Z.of_nat (length articles))
               ++ lit ")") >>
  for_each (firstn (Nat.min (length articles) 30) articles) show_article.

(** Lines 76-83. *)
Definition fetch_step (inp : Inputs) : App (list Article) :=
  try_except
    (st_spinner (lit "Fetching articles from NewsAPI...") >>
     get_news_articles (query inp) (max_articles inp))
    (fun e =>
       st_error (lit "Failed to fetch articles: " ++ exn_msg e) >>
       logger_exception (lit "NewsAPI fetch failed") >>
       ret []).

Definition cost_warning : pystr :=
  lit "Large token estimate " ++ emdash
  ++ lit " consider lowering max articles to reduce OpenAI usage/cost.".

(** Lines 104-113. *)
Definition token_estimate_step (text : pystr) : App unit :=
  try_except
    (let* tokens_est := (fun s => (estimate_tokens text, s, [])) in
     st_info (lit "Estimated tokens for input (approx): " ++ str_of_Z tokens_est) >>
     if 8000 <? tokens_est then st_warning cost_warning else ret tt)
    (fun _ => ret tt).

(** Lines 126-136. *)
Definition show_summary (inp : Inputs) (summary : option pystr) : App unit :=
  match summary with
  | Some (c :: rest) =>
      let summary := c :: rest in
      st_markdown (lit "### Summary") >>
      st_write summary >>
      st_download_button (lit "Download summary (txt)") summary (lit "summary.txt") >>
      (fun s => (Ok tt,
                 set_history (Some ((query inp, summary) :: default [] (history s))) s,
                 []))
  | _ => ret tt
  end.

(** Lines 116-136. *)
Definition summarize_step (now : Z) (inp : Inputs) : App unit :=
  let* summary :=
    try_except
      (st_spinner (lit "Summarizing (calls LLM)...") >>
       let* v := get_summary_cached_ui now (query inp) (max_articles inp) in
       ret (Some v))
      (fun e =>
         st_error (lit "Error during summarization: " ++ exn_msg e) >>
         logger_exception (lit "Summarization error") >>
         ret None) in
  show_summary inp summary.

(** Lines 71-136, the body of [if run_pressed:]. *)
Definition run_handler (now : Z) (inp : Inputs) : App unit :=
  if negb (truthy (strip (query inp))) then
    st_warning (lit "Please enter a query.")
  else
    let* articles := fetch_step inp in
    match articles with
    | [] => st_info (lit "No articles found for this query.")
    | _ :: _ =>
        show_articles articles >>
        token_estimate_step (concat_text articles) >>
        summarize_step now inp
    end.

(** Lines 139-143. *)
Definition history_panel : App unit := fun s =>
  match history s with
  | Some (h :: hs) =>
      (st_markdown (lit "### Recent queries") >>
       for_each (firstn 10 (h :: hs)) (fun h =>
         st_write (lit "**" ++ fst h ++ lit "**") >>
         st_write (firstn 300 (snd h)
                   ++ (if (300 <? length (snd h))%nat then lit "..." else [])))) s
  | _ => ret tt s
  end.

(** Lines 146-154. *)
Definition developer_tools (inp : Inputs) : App unit :=
  st_write (lit "Use these when developing to inspect/clear caches.") >>
  (if clear_streamlit_pressed inp then
     try_except
       (st_cache_data_clear >> st_success (lit "Cleared Streamlit cache."))
       (fun _ => st_error (lit "Failed to clear Streamlit cache."))
   else ret tt) >>
  st_write (lit "Module-level cached function available: get_summary_cached_module(query, max_articles)").

(** Lines 157-161. *)
Definition footer : App unit :=
  st_markdown (lit "---") >>
  st_markdown
    (lit "Notes: This tool uses NewsAPI (developer key limits apply) and OpenAI (token costs). "
     ++ lit "Keep `max articles` low during development to reduce cost.").

(** One run of the script, top to bottom, at instant [now]. *)
Definition app_script (now : Z) (inp : Inputs) : App unit :=
  st_title (lit "Equity Research News Tool") >>
  sidebar inp >>
  (if run_pressed inp then run_handler now inp else ret tt) >>
  history_panel >>
  developer_tools inp >>
  footer.

(** The states the program can be in between two script runs. *)
Inductive reachable : AppState -> Prop :=
| reachable_init : reachable init_state
| reachable_run now inp s :
    reachable s -> reachable (state_of (app_script now inp s)).

(** *** The life of one key, in the words of the specification *)

Inductive KeyStatus :=
| UNSET
| CACHED_outer
| CACHED_outer_inner
| CACHED_inner_only.

Definition key_status (now : Z) (k : pystr * Z) (s : AppState) : KeyStatus :=
  match outer_lookup ui_ttl now k (outer s), inner s !! k with
  | None, None => UNSET
  | Some _, None => CACHED_outer
  | Some _, Some _ => CACHED_outer_inner
  | None, Some _ => CACHED_inner_only
  end.

(** The life of a key as the specification gives it (COMPUTING is not a
    stored state). *)
Definition claimed_lifecycle : list KeyStatus :=
  [UNSET; CACHED_outer; CACHED_outer_inner; CACHED_inner_only; UNSET].

(** The life of a key as the program runs it, from state [s] at instant
    [now]: before the call; when the inner wrapper has returned and the
    outer one has not stored yet; when the call has returned; when the
    24 hours have passed; after "Clear all caches". *)
Definition observed_lifecycle (now : Z) (q : pystr) (n : Z) (s : AppState)
    : list KeyStatus :=
  let mid := state_of (get_summary_cached_module q n s) in
  let s1 := state_of (get_summary_cached_ui now q n s) in
  [ key_status now (q, n) s;
    key_status now (q, n) mid;
    key_status now (q, n) s1;
    key_status (now + ui_ttl) (q, n) s1;
    key_status (now + ui_ttl) (q, n) (state_of (clear_all_caches s1)) ].

(** Every outer entry has its value in the inner tier. *)
Definition tiers_coherent (s : AppState) : Prop :=
  forall k v t0, outer s !! k = Some (v, t0) -> inner s !! k = Some v.

(** Script runs in none of which "Clear all caches" is pressed. *)
Inductive runs_without_clear : AppState -> AppState -> Prop :=
| runs_none s : runs_without_clear s s
| runs_more s s' now inp :
    runs_without_clear s s' ->
    clear_all_pressed inp = false ->
    runs_without_clear s (state_of (app_script now inp s')).

(** The line written for one article, lines 91-97. *)
Definition article_line (a : Article) : pystr :=
  let title := py_or (title a) (lit "<no title>") in
  let src := article_src a in
  match url a with
  | Some (c :: u) =>
      lit "- [" ++ title ++ lit "](" ++ (c :: u) ++ lit ") " ++ emdash
      ++ lit " *" ++ src ++ lit "*"
  | _ => lit "- " ++ title ++ lit " " ++ emdash ++ lit " *" ++ src ++ lit "*"
  end.

(** [v] is the answer the LLM gave on the concatenation of the articles the
    Fetcher returned for [(q, n)]: the two calls are in the log of [s], one
    right after the other. *)
Definition genuine (s : AppState) (q : pystr) (n : Z) (v : pystr) : Prop :=
  exists t articles,
    calls s !! t = Some (FetchCall q n)
    /\ news_search t q n = inr articles
    /\ calls s !! S t = Some (LLMCall (concat_text articles))
    /\ llm_summarize (S t) (concat_text articles) = inr v.

(** The tiers are coherent, and every summary of the inner tier and of the
    history is genuine. *)
Definition all_genuine (s : AppState) : Prop :=
  tiers_coherent s
  /\ (forall q n v, inner s !! (q, n) = Some v -> genuine s q n v)
  /\ (forall q v, In (q, v) (history_list s) -> exists n, genuine s q n v).

(** ** Properties *)

(** *** The effect combinators *)

Lemma preserves_ret {A} P (a : A) : preserves P (ret a).
Proof. intros s H. exact H. Qed.

Lemma preserves_bind {A B} P (m : App A) (k : A -> App B) :
  preserves P m -> (forall a, preserves P (k a)) -> preserves P (bind m k).
Proof.
  intros Hm Hk s Hs. unfold bind, state_of.
  specialize (Hm s Hs). unfold state_of in Hm.
  destruct (m s) as [[[a|e] s1] w1]; simpl in *; [|exact Hm].
  specialize (Hk a s1 Hm). unfold state_of in Hk.
  destruct (k a s1) as [[r s2] w2]. exact Hk.
Qed.

Lemma preserves_try_except {A} P (m : App A) (h : exn -> App A) :
  preserves P m -> (forall e, preserves P (h e)) -> preserves P (try_except m h).
Proof.
  intros Hm Hh s Hs. unfold try_except, state_of.
  specialize (Hm s Hs). unfold state_of in Hm.
  destruct (m s) as [[[a|e] s1] w1]; simpl in *; [exact Hm|].
  specialize (Hh e s1 Hm). unfold state_of in Hh.
  destruct (h e s1) as [[r s2] w2]. exact Hh.
Qed.

Lemma preserves_emit P w : preserves P (emit w).
Proof. intros s H. exact H. Qed.

Lemma preserves_for_each {A} P (xs : list A) (f : A -> App unit) :
  (forall x, preserves P (f x)) -> preserves P (for_each xs f).
Proof.
  intros Hf. induction xs as [|x xs IH]; simpl.
  - apply preserves_ret.
  - apply preserves_bind; [apply Hf | intros _; exact IH].
Qed.

Create HintDb app.
#[local] Hint Resolve preserves_ret preserves_emit : app.

(** *** The uncached computation and the inner tier *)

Lemma length_calls_log c s : length (calls (log_call c s)) = S (length (calls s)).
Proof. simpl. rewrite length_app. simpl. lia. Qed.

(** [get_summary], case by case on what the two services answer. *)
Lemma get_summary_eq q n s :
  get_summary q n s =
  match news_search (length (calls s)) q n with
  | inl msg => (Raise (FetchError msg), log_call (FetchCall q n) s, [])
  | inr articles =>
      let s1 := log_call (FetchCall q n) s in
      match llm_summarize (S (length (calls s))) (concat_text articles) with
      | inr v => (Ok v, log_call (LLMCall (concat_text articles)) s1, [])
      | inl msg =>
          (Raise (SummarizationError msg),
           log_call (LLMCall (concat_text articles)) s1, [])
      end
  end.
Proof.
  unfold get_summary, bind, get_news_articles.
  destruct (news_search _ q n) as [msg|articles]; [reflexivity|].
  unfold summarize_articles_llm. rewrite length_calls_log.
  destruct (llm_summarize _ _); reflexivity.
Qed.

Lemma get_summary_frame q n s :
  outer (state_of (get_summary q n s)) = outer s
  /\ inner (state_of (get_summary q n s)) = inner s
  /\ history (state_of (get_summary q n s)) = history s
  /\ widgets_of (get_summary q n s) = [].
Proof.
  rewrite get_summary_eq.
  destruct (news_search _ q n); [repeat split|].
  simpl. destruct (llm_summarize _ _); repeat split.
Qed.

Lemma get_summary_calls q n s :
  calls (state_of (get_summary q n s)) =
  match news_search (length (calls s)) q n with
  | inl _ => calls s ++ [FetchCall q n]
  | inr articles => calls s ++ [FetchCall q n; LLMCall (concat_text articles)]
  end.
Proof.
  rewrite get_summary_eq.
  destruct (news_search _ q n) as [msg|articles]; [reflexivity|].
  simpl. destruct (llm_summarize _ _); simpl; rewrite <- app_assoc; reflexivity.
Qed.

(** The memoised wrapper, case by case. *)
Lemma cached_module_eq q n s :
  get_summary_cached_module q n s =
  match inner s !! (q, n) with
  | Some v => (Ok v, s, [])
  | None =>
      let s1 := state_of (get_summary q n s) in
      match result_of (get_summary q n s) with
      | Ok v => (Ok v, set_inner (<[(q, n) := v]> (inner s)) s1, [])
      | Raise e => (Raise e, s1, [])
      end
  end.
Proof.
  unfold get_summary_cached_module.
  destruct (inner s !! (q, n)); [reflexivity|].
  destruct (get_summary_frame q n s) as (_ & Hi & _ & Hw).
  unfold state_of, result_of, widgets_of in *.
  destruct (get_summary q n s) as [[[v|e] s1] w1]; simpl in *; subst;
    rewrite ?Hi; reflexivity.
Qed.

Lemma cached_module_frame q n s :
  outer (state_of (get_summary_cached_module q n s)) = outer s
  /\ history (state_of (get_summary_cached_module q n s)) = history s
  /\ widgets_of (get_summary_cached_module q n s) = [].
Proof.
  rewrite cached_module_eq.
  destruct (get_summary_frame q n s) as (Ho & _ & Hh & _).
  destruct (inner s !! (q, n)); [repeat split|].
  simpl. destruct (result_of (get_summary q n s)); repeat split; assumption.
Qed.

Lemma cached_module_ok q n s v :
  result_of (get_summary_cached_module q n s) = Ok v ->
  inner (state_of (get_summary_cached_module q n s)) !! (q, n) = Some v.
Proof.
  rewrite cached_module_eq.
  destruct (inner s !! (q, n)) as [v0|] eqn:Hk.
  - simpl. intros [= ->]. exact Hk.
  - simpl. destruct (result_of (get_summary q n s)); simpl; [|discriminate].
    intros [= ->]. apply lookup_insert_eq.
Qed.

Lemma cached_module_raise q n s e :
  result_of (get_summary_cached_module q n s) = Raise e ->
  inner (state_of (get_summary_cached_module q n s)) = inner s.
Proof.
  rewrite cached_module_eq.
  destruct (inner s !! (q, n)); [discriminate|].
  destruct (get_summary_frame q n s) as (_ & Hi & _).
  unfold state_of, result_of in *.
  destruct (get_summary q n s) as [[[v|e'] s1] w1]; simpl in *; [discriminate|].
  intros _. exact Hi.
Qed.

Lemma cached_module_other q n s k :
  k <> (q, n) ->
  inner (state_of (get_summary_cached_module q n s)) !! k = inner s !! k.
Proof.
  intros Hne. rewrite cached_module_eq.
  destruct (inner s !! (q, n)); [reflexivity|].
  destruct (get_summary_frame q n s) as (_ & Hi & _).
  unfold state_of, result_of in *.
  destruct (get_summary q n s) as [[[v|e] s1] w1]; simpl in *.
  - rewrite lookup_insert_ne by congruence. reflexivity.
  - rewrite Hi. reflexivity.
Qed.

(** An inner entry, once written, survives every later call of the wrapper. *)
Lemma cached_module_keeps q n s k v :
  inner s !! k = Some v ->
  inner (state_of (get_summary_cached_module q n s)) !! k = Some v.
Proof.
  intros Hk. destruct (decide (k = (q, n))) as [->|Hne].
  - rewrite cached_module_eq, Hk. exact Hk.
  - rewrite cached_module_other by exact Hne. exact Hk.
Qed.

Lemma cached_module_calls q n s :
  calls (state_of (get_summary_cached_module q n s)) =
  match inner s !! (q, n) with
  | Some _ => calls s
  | None => calls (state_of (get_summary q n s))
  end.
Proof.
  rewrite cached_module_eq.
  destruct (inner s !! (q, n)); [reflexivity|].
  simpl. destruct (result_of (get_summary q n s)); reflexivity.
Qed.

(** *** The outer tier *)

Lemma ui_ttl_value : ui_ttl = 86400.
Proof. reflexivity. Qed.

Lemma outer_lookup_insert ttl now k v o :
  0 < ttl -> outer_lookup ttl now k (<[k := (v, now)]> o) = Some v.
Proof.
  intros Hpos. unfold outer_lookup. rewrite lookup_insert_eq.
  destruct (Z.ltb_spec now (now + ttl)); [reflexivity|lia].
Qed.

Lemma outer_lookup_Some ttl now k o v :
  outer_lookup ttl now k o = Some v <->
  exists t0, o !! k = Some (v, t0) /\ now < t0 + ttl.
Proof.
  unfold outer_lookup. destruct (o !! k) as [[v0 t0]|].
  - destruct (Z.ltb_spec now (t0 + ttl)); split.
    + intros [= ->]. eauto.
    + intros (t & [= -> ->] & _). reflexivity.
    + discriminate.
    + intros (t & [= -> ->] & ?). lia.
  - split; [discriminate|]. intros (t & ? & _). discriminate.
Qed.

(** The page-level wrapper, case by case. *)
Lemma cached_ui_eq now q n s :
  get_summary_cached_ui now q n s =
  match outer_lookup ui_ttl now (q, n) (outer s) with
  | Some v => (Ok v, s, [])
  | None =>
      let s1 := state_of (get_summary_cached_module q n s) in
      match result_of (get_summary_cached_module q n s) with
      | Ok v => (Ok v, set_outer (<[(q, n) := (v, now)]> (outer s)) s1, [])
      | Raise e => (Raise e, s1, [])
      end
  end.
Proof.
  unfold get_summary_cached_ui, st_cache_data.
  destruct (outer_lookup _ _ _ _); [reflexivity|].
  destruct (cached_module_frame q n s) as (Ho & _ & Hw).
  unfold state_of, result_of, widgets_of in *.
  destruct (get_summary_cached_module q n s) as [[[v|e] s1] w1];
    simpl in *; subst; try rewrite Ho; reflexivity.
Qed.

Lemma cached_ui_frame now q n s :
  history (state_of (get_summary_cached_ui now q n s)) = history s
  /\ widgets_of (get_summary_cached_ui now q n s) = [].
Proof.
  rewrite cached_ui_eq.
  destruct (cached_module_frame q n s) as (_ & Hh & _).
  destruct (outer_lookup _ _ _ _); [split; reflexivity|].
  simpl. destruct (result_of (get_summary_cached_module q n s)); split;
    try reflexivity; exact Hh.
Qed.

(** A call that raises leaves both tiers as they were. *)
Lemma cached_ui_raise now q n s e :
  result_of (get_summary_cached_ui now q n s) = Raise e ->
  outer (state_of (get_summary_cached_ui now q n s)) = outer s
  /\ inner (state_of (get_summary_cached_ui now q n s)) = inner s.
Proof.
  rewrite cached_ui_eq.
  destruct (outer_lookup _ _ _ _); [discriminate|].
  destruct (cached_module_frame q n s) as (Ho & _).
  pose proof (cached_module_raise q n s) as Hr.
  simpl. destruct (result_of (get_summary_cached_module q n s)) as [v|e'];
    [discriminate|].
  intros _. split; [exact Ho | exact (Hr e' eq_refl)].
Qed.

(** A call on one key leaves every other key of both tiers as it was. *)
Lemma cached_ui_other now q n s k :
  k <> (q, n) ->
  outer (state_of (get_summary_cached_ui now q n s)) !! k = outer s !! k
  /\ inner (state_of (get_summary_cached_ui now q n s)) !! k = inner s !! k.
Proof.
  intros Hne. rewrite cached_ui_eq.
  destruct (outer_lookup _ _ _ _); [split; reflexivity|].
  destruct (cached_module_frame q n s) as (Ho & _).
  pose proof (cached_module_other q n s k Hne) as Hi.
  simpl. destruct (result_of (get_summary_cached_module q n s)); simpl.
  - rewrite lookup_insert_ne by congruence. split; [reflexivity | exact Hi].
  - rewrite Ho. split; [reflexivity | exact Hi].
Qed.

(** A value returned is, from then on, a live entry of the outer tier. *)
Lemma cached_ui_ok now q n s v :
  result_of (get_summary_cached_ui now q n s) = Ok v ->
  outer_lookup ui_ttl now (q, n) (outer (state_of (get_summary_cached_ui now q n s)))
  = Some v.
Proof.
  rewrite cached_ui_eq.
  destruct (outer_lookup _ _ _ _) as [v0|] eqn:Hl.
  - simpl. intros [= ->]. exact Hl.
  - simpl. destruct (result_of (get_summary_cached_module q n s)); [|discriminate].
    simpl. intros [= ->]. apply outer_lookup_insert. reflexivity.
Qed.

Lemma cached_ui_keeps_inner now q n s k v :
  inner s !! k = Some v ->
  inner (state_of (get_summary_cached_ui now q n s)) !! k = Some v.
Proof.
  intros Hk. rewrite cached_ui_eq.
  destruct (outer_lookup _ _ _ _); [exact Hk|].
  pose proof (cached_module_keeps q n s k v Hk) as Hi.
  simpl. destruct (result_of (get_summary_cached_module q n s)); exact Hi.
Qed.

Lemma cached_ui_calls now q n s :
  calls (state_of (get_summary_cached_ui now q n s)) =
  match outer_lookup ui_ttl now (q, n) (outer s) with
  | Some _ => calls s
  | None => calls (state_of (get_summary_cached_module q n s))
  end.
Proof.
  rewrite cached_ui_eq.
  destruct (outer_lookup _ _ _ _); [reflexivity|].
  simpl. destruct (result_of (get_summary_cached_module q n s)); reflexivity.
Qed.

(** The page-level wrapper keeps the tiers coherent: it writes the outer
    entry after the inner one, with the same value. *)
Lemma cached_ui_coherent now q n :
  preserves tiers_coherent (get_summary_cached_ui now q n).
Proof.
  intros s Hs. rewrite cached_ui_eq.
  destruct (outer_lookup _ _ _ _); [exact Hs|].
  destruct (cached_module_frame q n s) as (Ho & _).
  pose proof (cached_module_ok q n s) as Hok.
  pose proof (cached_module_raise q n s) as Hr.
  pose proof (cached_module_keeps q n s) as Hkeep.
  simpl. destruct (result_of (get_summary_cached_module q n s)) as [v|e]; simpl.
  - intros k v' t'. simpl.
    destruct (decide (k = (q, n))) as [->|Hne].
    + rewrite lookup_insert_eq. intros [= <- <-]. apply Hok. reflexivity.
    + rewrite lookup_insert_ne by congruence. intros Hk.
      apply Hkeep. exact (Hs _ _ _ Hk).
  - intros k v' t'. rewrite Ho, (Hr e eq_refl). apply Hs.
Qed.

(** On a coherent state the outcome of a call does not depend on the
    instant at which it is made. *)
Lemma cached_ui_time_independent now1 now2 q n s :
  tiers_coherent s ->
  result_of (get_summary_cached_ui now1 q n s)
    = result_of (get_summary_cached_ui now2 q n s)
  /\ inner (state_of (get_summary_cached_ui now1 q n s))
    = inner (state_of (get_summary_cached_ui now2 q n s))
  /\ calls (state_of (get_summary_cached_ui now1 q n s))
    = calls (state_of (get_summary_cached_ui now2 q n s)).
Proof.
  intros Hs. rewrite !cached_ui_eq.
  destruct (outer_lookup ui_ttl now1 _ _) as [v1|] eqn:H1;
    destruct (outer_lookup ui_ttl now2 _ _) as [v2|] eqn:H2.
  - apply outer_lookup_Some in H1 as (t1 & E1 & _).
    apply outer_lookup_Some in H2 as (t2 & E2 & _).
    rewrite E1 in E2. injection E2 as -> _. repeat split.
  - apply outer_lookup_Some in H1 as (t1 & E1 & _).
    apply Hs in E1. rewrite cached_module_eq, E1. repeat split.
  - apply outer_lookup_Some in H2 as (t2 & E2 & _).
    apply Hs in E2. rewrite cached_module_eq, E2. repeat split.
  - simpl. destruct (result_of (get_summary_cached_module q n s)); repeat split.
Qed.

(** *** The handlers of the page *)

Lemma bind_page_only {B} (m : App unit) (k : unit -> App B) s :
  page_only m ->
  bind m k s = (result_of (k tt s), state_of (k tt s),
                widgets_of (m s) ++ widgets_of (k tt s)).
Proof.
  intros Hm. destruct (Hm s) as (Hr & Hs). unfold bind.
  destruct (m s) as [[r s1] w1]. simpl in *. subst.
  destruct (k tt s) as [[r2 s2] w2]. reflexivity.
Qed.

Lemma page_only_ret : page_only (ret tt).
Proof. intros s. split; reflexivity. Qed.

Lemma page_only_emit w : page_only (emit w).
Proof. intros s. split; reflexivity. Qed.

Lemma page_only_bind (m : App unit) (k : unit -> App unit) :
  page_only m -> page_only (k tt) -> page_only (bind m k).
Proof.
  intros Hm Hk s. rewrite bind_page_only by exact Hm. simpl. apply Hk.
Qed.

Lemma page_only_for_each {A} (xs : list A) (f : A -> App unit) :
  (forall x, page_only (f x)) -> page_only (for_each xs f).
Proof.
  intros Hf. induction xs as [|x xs IH]; simpl.
  - apply page_only_ret.
  - apply page_only_bind; [apply Hf | exact IH].
Qed.

Lemma page_only_preserves P (m : App unit) : page_only m -> preserves P m.
Proof. intros Hm s Hs. destruct (Hm s) as (_ & ->). exact Hs. Qed.

Lemma page_only_show_article a : page_only (show_article a).
Proof.
  unfold show_article. destruct (url a) as [[|c u]|]; apply page_only_emit.
Qed.

Lemma page_only_show_articles articles : page_only (show_articles articles).
Proof.
  unfold show_articles. apply page_only_bind; [apply page_only_emit|].
  apply page_only_for_each. apply page_only_show_article.
Qed.

(** Lines 104-113 never raise and never touch the state; the cost warning
    is on the page exactly when the estimate exists and exceeds 8000. *)
Lemma token_estimate_step_eq text s :
  token_estimate_step text s =
  (Ok tt, s,
   match estimate_tokens text with
   | Ok tokens_est =>
       StInfo (lit "Estimated tokens for input (approx): " ++ str_of_Z tokens_est)
       :: (if 8000 <? tokens_est then [StWarning cost_warning] else [])
   | Raise _ => []
   end).
Proof.
  unfold token_estimate_step, try_except, bind.
  destruct (estimate_tokens text) as [t|e]; [|reflexivity].
  simpl. destruct (8000 <? t); reflexivity.
Qed.

Lemma page_only_token_estimate_step text : page_only (token_estimate_step text).
Proof. intros s. rewrite token_estimate_step_eq. split; reflexivity. Qed.

Lemma page_only_history_panel : page_only history_panel.
Proof.
  intros s. unfold history_panel. destruct (history s) as [[|h hs]|].
  - split; reflexivity.
  - apply page_only_bind; [apply page_only_emit|].
    apply page_only_for_each. intros x.
    apply page_only_bind; apply page_only_emit.
  - split; reflexivity.
Qed.

Lemma clear_all_caches_eq s :
  clear_all_caches s =
  (Ok tt, set_inner ∅ (set_outer ∅ s),
   [StSuccess (lit "Cleared Streamlit cache and module cache.")]).
Proof. reflexivity. Qed.

Lemma fetch_step_eq inp s :
  fetch_step inp s =
  match news_search (length (calls s)) (query inp) (max_articles inp) with
  | inr articles =>
      (Ok articles, log_call (FetchCall (query inp) (max_articles inp)) s,
       [StSpinner (lit "Fetching articles from NewsAPI...")])
  | inl msg =>
      (Ok [], log_call (FetchCall (query inp) (max_articles inp)) s,
       [StSpinner (lit "Fetching articles from NewsAPI...");
        StError (lit "Failed to fetch articles: " ++ msg);
        LogException (lit "NewsAPI fetch failed")])
  end.
Proof.
  unfold fetch_step, try_except, bind, get_news_articles. simpl.
  destruct (news_search _ _ _); reflexivity.
Qed.

Lemma show_summary_eq inp summary s :
  show_summary inp summary s =
  match summary with
  | Some (c :: rest) =>
      (Ok tt,
       set_history (Some ((query inp, c :: rest) :: default [] (history s))) s,
       [StMarkdown (lit "### Summary"); StWrite (c :: rest);
        StDownloadButton (lit "Download summary (txt)") (c :: rest) (lit "summary.txt")])
  | _ => (Ok tt, s, [])
  end.
Proof. destruct summary as [[|c rest]|]; reflexivity. Qed.

Lemma summarize_step_eq now inp s :
  summarize_step now inp s =
  let x := get_summary_cached_ui now (query inp) (max_articles inp) s in
  match result_of x with
  | Ok v =>
      let y := show_summary inp (Some v) (state_of x) in
      (Ok tt, state_of y, StSpinner (lit "Summarizing (calls LLM)...") :: widgets_of y)
  | Raise e =>
      (Ok tt, state_of x,
       [StSpinner (lit "Summarizing (calls LLM)...");
        StError (lit "Error during summarization: " ++ exn_msg e);
        LogException (lit "Summarization error")])
  end.
Proof.
  destruct (cached_ui_frame now (query inp) (max_articles inp) s) as (_ & Hw).
  unfold summarize_step, bind, try_except. simpl.
  unfold result_of, state_of, widgets_of in *.
  destruct (get_summary_cached_ui now (query inp) (max_articles inp) s)
    as [[[v|e] s1] w1]; simpl in *; subst; simpl.
  - destruct v as [|c rest]; reflexivity.
  - reflexivity.
Qed.

(** The run handler once the page-level fetch has returned articles: the
    list, the estimate and then, in every case, the summarisation step. *)
Lemma run_handler_fetched now inp s a articles :
  truthy (strip (query inp)) = true ->
  news_search (length (calls s)) (query inp) (max_articles inp) = inr (a :: articles) ->
  let s1 := log_call (FetchCall (query inp) (max_articles inp)) s in
  run_handler now inp s =
  (result_of (summarize_step now inp s1), state_of (summarize_step now inp s1),
   StSpinner (lit "Fetching articles from NewsAPI...")
   :: widgets_of (show_articles (a :: articles) s1)
   ++ widgets_of (token_estimate_step (concat_text (a :: articles)) s1)
   ++ widgets_of (summarize_step now inp s1)).
Proof.
  intros Hq Hf s1. unfold run_handler. rewrite Hq. simpl.
  unfold bind at 1. rewrite fetch_step_eq, Hf.
  rewrite bind_page_only by apply page_only_show_articles.
  rewrite bind_page_only by apply page_only_token_estimate_step.
  reflexivity.
Qed.

(** *** Properties of the tiers kept by a whole script run *)

Lemma preserves_get_news_articles P q n :
  cache_prop P -> preserves P (get_news_articles q n).
Proof.
  intros HP s Hs. unfold get_news_articles.
  destruct (news_search _ q n); simpl; apply (HP s); auto.
Qed.

Lemma preserves_fetch_step P inp : cache_prop P -> preserves P (fetch_step inp).
Proof.
  intros HP. unfold fetch_step. apply preserves_try_except.
  - apply preserves_bind; [apply preserves_emit|intros _].
    apply preserves_get_news_articles, HP.
  - intros e. repeat (apply preserves_bind; [apply preserves_emit|intros _]).
    apply preserves_ret.
Qed.

Lemma preserves_show_summary P inp summary :
  cache_prop P -> preserves P (show_summary inp summary).
Proof.
  intros HP s Hs. rewrite show_summary_eq.
  destruct summary as [[|c rest]|]; simpl; try exact Hs.
  apply (HP s); auto.
Qed.

Lemma preserves_summarize_step P now inp :
  cache_prop P ->
  preserves P (get_summary_cached_ui now (query inp) (max_articles inp)) ->
  preserves P (summarize_step now inp).
Proof.
  intros HP Hc. unfold summarize_step. apply preserves_bind.
  - apply preserves_try_except.
    + apply preserves_bind; [apply preserves_emit|intros _].
      apply preserves_bind; [exact Hc|intros v; apply preserves_ret].
    + intros e. repeat (apply preserves_bind; [apply preserves_emit|intros _]).
      apply preserves_ret.
  - intros summary. apply preserves_show_summary, HP.
Qed.

Lemma preserves_run_handler P now inp :
  cache_prop P ->
  preserves P (get_summary_cached_ui now (query inp) (max_articles inp)) ->
  preserves P (run_handler now inp).
Proof.
  intros HP Hc. unfold run_handler.
  destruct (negb _); [apply preserves_emit|].
  apply preserves_bind; [apply preserves_fetch_step, HP|].
  intros [|a articles]; [apply preserves_emit|].
  apply preserves_bind;
    [apply page_only_preserves, page_only_show_articles|intros _].
  apply preserves_bind;
    [apply page_only_preserves, page_only_token_estimate_step|intros _].
  apply preserves_summarize_step; assumption.
Qed.

Lemma preserves_developer_tools P inp :
  preserves P st_cache_data_clear -> preserves P (developer_tools inp).
Proof.
  intros Hc. unfold developer_tools.
  apply preserves_bind; [apply preserves_emit|intros _].
  apply preserves_bind; [|intros _; apply preserves_emit].
  destruct (clear_streamlit_pressed inp); [|apply preserves_ret].
  apply preserves_try_except.
  - apply preserves_bind; [exact Hc|intros _; apply preserves_emit].
  - intros e. apply preserves_emit.
Qed.

Lemma preserves_app_script P now inp :
  cache_prop P ->
  preserves P (get_summary_cached_ui now (query inp) (max_articles inp)) ->
  preserves P (clear_all_button inp) ->
  preserves P st_cache_data_clear ->
  preserves P (app_script now inp).
Proof.
  intros HP Hc Hside Hclear. unfold app_script, sidebar, footer.
  apply preserves_bind; [apply preserves_emit|intros _].
  apply preserves_bind.
  { repeat (apply preserves_bind; [apply preserves_emit|intros _]).
    exact Hside. }
  intros _. apply preserves_bind.
  { destruct (run_pressed inp); [|apply preserves_ret].
    apply preserves_run_handler; assumption. }
  intros _. apply preserves_bind.
  { apply page_only_preserves, page_only_history_panel. }
  intros _. apply preserves_bind.
  { apply preserves_developer_tools, Hclear. }
  intros _. apply preserves_bind; [apply preserves_emit|intros _].
  apply preserves_emit.
Qed.

Lemma cache_prop_coherent : cache_prop tiers_coherent.
Proof.
  intros s s' Ho Hi Hs k v t0. rewrite <- Ho, <- Hi. apply Hs.
Qed.

Lemma app_script_coherent now inp : preserves tiers_coherent (app_script now inp).
Proof.
  apply preserves_app_script.
  - apply cache_prop_coherent.
  - apply cached_ui_coherent.
  - intros s Hs. unfold clear_all_button.
    destruct (clear_all_pressed inp); [|exact Hs].
    rewrite clear_all_caches_eq. intros k v t0. simpl.
    rewrite lookup_empty. discriminate.
  - intros s Hs k v t0. simpl. rewrite lookup_empty. discriminate.
Qed.

(** Between script runs, a value in the outer tier is also in the inner
    tier. *)
Lemma reachable_coherent s : reachable s -> tiers_coherent s.
Proof.
  induction 1 as [|now inp s _ IH].
  - intros k v t0. simpl. rewrite lookup_empty. discriminate.
  - apply app_script_coherent, IH.
Qed.

(** A script run in which "Clear all caches" is not pressed keeps every
    inner entry. *)
Lemma app_script_keeps_inner now inp s k v :
  clear_all_pressed inp = false ->
  inner s !! k = Some v ->
  inner (state_of (app_script now inp s)) !! k = Some v.
Proof.
  intros Hc. apply (preserves_app_script (fun s => inner s !! k = Some v)).
  - intros s1 s2 _ Hi. rewrite Hi. auto.
  - intros s1. apply cached_ui_keeps_inner.
  - unfold clear_all_button. rewrite Hc. apply preserves_ret.
  - intros s1 Hs1. exact Hs1.
Qed.

Lemma coherent_never_outer_only now k s :
  tiers_coherent s -> key_status now k s <> CACHED_outer.
Proof.
  intros Hs. unfold key_status.
  destruct (outer_lookup ui_ttl now k (outer s)) as [v|] eqn:Hl.
  - apply outer_lookup_Some in Hl as (t0 & Hl & _).
    rewrite (Hs _ _ _ Hl). discriminate.
  - destruct (inner s !! k); discriminate.
Qed.

(** *** The claims on the two tiers *)

Lemma outer_lookup_empty ttl now k : outer_lookup ttl now k ∅ = None.
Proof. unfold outer_lookup. rewrite lookup_empty. reflexivity. Qed.

(** A key in neither tier is computed: the call is [get_summary], stored. *)
Lemma cached_ui_unset now q n s :
  key_status now (q, n) s = UNSET ->
  result_of (get_summary_cached_ui now q n s) = result_of (get_summary q n s)
  /\ calls (state_of (get_summary_cached_ui now q n s))
     = calls (state_of (get_summary q n s)).
Proof.
  unfold key_status. intros Hu.
  rewrite cached_ui_calls, cached_module_calls.
  rewrite cached_ui_eq, cached_module_eq.
  destruct (outer_lookup _ _ _ _); [destruct (inner s !! (q, n)); discriminate|].
  destruct (inner s !! (q, n)); [discriminate|].
  simpl. destruct (result_of (get_summary q n s)); split; reflexivity.
Qed.

(** C1. After "Clear all caches" both tiers are empty, so no key is served
    from either of them: the next call of the cached entry point, for any
    key and at any instant, is the uncached computation, which calls the
    Fetcher and, on the articles it returns, the LLM. *)
Theorem clear_all_caches_no_stale_hit s now q n :
  let s' := state_of (clear_all_caches s) in
  result_of (clear_all_caches s) = Ok tt
  /\ outer s' = ∅
  /\ inner s' = ∅
  /\ key_status now (q, n) s' = UNSET
  /\ result_of (get_summary_cached_ui now q n s') = result_of (get_summary q n s')
  /\ calls (state_of (get_summary_cached_ui now q n s')) =
       match news_search (length (calls s)) q n with
       | inl _ => calls s ++ [FetchCall q n]
       | inr articles => calls s ++ [FetchCall q n; LLMCall (concat_text articles)]
       end.
Proof.
  rewrite clear_all_caches_eq. simpl.
  assert (Hu : key_status now (q, n) (set_inner ∅ (set_outer ∅ s)) = UNSET).
  { unfold key_status. simpl. rewrite outer_lookup_empty, lookup_empty. reflexivity. }
  destruct (cached_ui_unset now q n _ Hu) as (Hr & Hc).
  repeat split; try assumption.
  rewrite Hc, get_summary_calls. reflexivity.
Qed.

(** C2. When a call of the cached entry point has returned a summary and
    the outer entry of the key has not expired, a second call with the same
    pair returns the same text, leaves the state as it is and makes no
    upstream call at all. *)
Theorem cached_ui_idempotent now1 now2 q n s v :
  result_of (get_summary_cached_ui now1 q n s) = Ok v ->
  (forall v0 t0,
     outer (state_of (get_summary_cached_ui now1 q n s)) !! (q, n) = Some (v0, t0) ->
     now2 < t0 + ui_ttl) ->
  let s1 := state_of (get_summary_cached_ui now1 q n s) in
  get_summary_cached_ui now2 q n s1 = (Ok v, s1, [])
  /\ calls (state_of (get_summary_cached_ui now2 q n s1)) = calls s1
  /\ (length (calls (state_of (get_summary_cached_ui now2 q n s1)))
      <= length (calls s1) + 1)%nat.
Proof.
  intros Hok Hlive s1.
  pose proof (cached_ui_ok now1 q n s v Hok) as Hl.
  apply outer_lookup_Some in Hl as (t0 & Hl & _).
  assert (Hl2 : outer_lookup ui_ttl now2 (q, n) (outer s1) = Some v).
  { apply outer_lookup_Some. exists t0. split; [exact Hl|]. exact (Hlive _ _ Hl). }
  assert (E : get_summary_cached_ui now2 q n s1 = (Ok v, s1, [])).
  { rewrite cached_ui_eq, Hl2. reflexivity. }
  rewrite E. simpl. repeat split. lia.
Qed.

(** Between script runs the second call needs no condition on time: after
    expiry of the outer entry the inner one answers. *)
Lemma cached_ui_repeat_reachable now1 now2 q n s v :
  reachable s ->
  result_of (get_summary_cached_ui now1 q n s) = Ok v ->
  let s1 := state_of (get_summary_cached_ui now1 q n s) in
  result_of (get_summary_cached_ui now2 q n s1) = Ok v
  /\ calls (state_of (get_summary_cached_ui now2 q n s1)) = calls s1.
Proof.
  intros Hr Hok s1.
  assert (Hc : tiers_coherent s1).
  { apply cached_ui_coherent, reachable_coherent, Hr. }
  pose proof (cached_ui_ok now1 q n s v Hok) as Hl.
  assert (E : get_summary_cached_ui now1 q n s1 = (Ok v, s1, [])).
  { rewrite cached_ui_eq. fold s1 in Hl. rewrite Hl. reflexivity. }
  destruct (cached_ui_time_independent now2 now1 q n s1 Hc) as (H1 & _ & H2).
  rewrite H1, H2, E. split; reflexivity.
Qed.

(** What a call returns is decided by the key, the instant, what the two
    tiers hold and the answers the services have yet to give; the session
    history and the calls already made play no part. *)
Lemma cached_ui_result_of_tiers now q n s s' :
  outer s' = outer s ->
  inner s' = inner s ->
  length (calls s') = length (calls s) ->
  result_of (get_summary_cached_ui now q n s')
  = result_of (get_summary_cached_ui now q n s).
Proof.
  intros Ho Hi Hc.
  rewrite !cached_ui_eq, !cached_module_eq, !get_summary_eq, Ho, Hi, Hc.
  destruct (outer_lookup _ _ _ _); [reflexivity|].
  destruct (inner s !! (q, n)); [reflexivity|].
  destruct (news_search _ q n); [reflexivity|].
  simpl. destruct (llm_summarize _ _); reflexivity.
Qed.

(** C3, as the program has it.  The key is the exact pair.  A call on one
    pair leaves the entries of every other pair in both tiers as they were,
    so a pair that was in neither tier is still computed from the Fetcher
    on, whatever was cached for a query that differs from it, be it by case
    or by white space only.  A lookup depends on the key and on what the
    two tiers hold; of the page it reads nothing else (not the session
    history, the dates or the TTL control).  The lookup of the outer tier
    also reads the clock, by design: an entry stored at [t0] is served at
    [t] exactly while [t < t0 + 86400].  Between script runs the summary
    the cached entry point returns and the upstream calls it makes are
    nevertheless the same at every instant. *)
Theorem cache_key_exact now now' q1 n1 q2 n2 s :
  (q1, n1) <> (q2, n2) ->
  reachable s ->
  let s1 := state_of (get_summary_cached_ui now q1 n1 s) in
  outer s1 !! (q2, n2) = outer s !! (q2, n2)
  /\ inner s1 !! (q2, n2) = inner s !! (q2, n2)
  /\ key_status now' (q2, n2) s1 = key_status now' (q2, n2) s
  /\ (key_status now' (q2, n2) s = UNSET ->
      exists rest,
        calls (state_of (get_summary_cached_ui now' q2 n2 s1))
        = calls s1 ++ FetchCall q2 n2 :: rest)
  /\ (forall t1 t2 q n,
        result_of (get_summary_cached_ui t1 q n s)
          = result_of (get_summary_cached_ui t2 q n s)
        /\ calls (state_of (get_summary_cached_ui t1 q n s))
          = calls (state_of (get_summary_cached_ui t2 q n s)))
  /\ (forall inp f t m,
        run_handler now (with_dates f t (with_cache_ttl_minutes m inp)) s
        = run_handler now inp s)
  /\ (forall t k o,
        outer_lookup ui_ttl t k o
        = match o !! k with
          | Some (v, t0) => if t <? t0 + 86400 then Some v else None
          | None => None
          end)
  /\ (forall t q n s',
        outer s' = outer s ->
        inner s' = inner s ->
        length (calls s') = length (calls s) ->
        result_of (get_summary_cached_ui t q n s')
        = result_of (get_summary_cached_ui t q n s)).
Proof.
  intros Hne Hr s1.
  assert (Hne' : (q2, n2) <> (q1, n1)) by congruence.
  destruct (cached_ui_other now q1 n1 s (q2, n2) Hne') as (Ho & Hi).
  assert (Hk : key_status now' (q2, n2) s1 = key_status now' (q2, n2) s).
  { unfold key_status, outer_lookup. fold s1 in Ho, Hi. rewrite Ho, Hi. reflexivity. }
  split; [exact Ho|]. split; [exact Hi|]. split; [exact Hk|]. split.
  { intros Hu. rewrite <- Hk in Hu.
    destruct (cached_ui_unset now' q2 n2 s1 Hu) as (_ & Hc).
    rewrite Hc, get_summary_calls.
    destruct (news_search _ q2 n2); eauto. }
  split.
  { intros t1 t2 q n.
    destruct (cached_ui_time_independent t1 t2 q n s (reachable_coherent s Hr))
      as (H1 & _ & H2).
    split; assumption. }
  split; [intros inp f t m; reflexivity|].
  split; [intros t k o; reflexivity|].
  intros t q n s'. apply cached_ui_result_of_tiers.
Qed.

(** *** The claims on the run handler *)

(** C5. When the page-level fetch fails or returns no article, the run
    handler returns normally; a failure is shown as an error message and
    logged, and counts as no article; the page says that no articles were
    found; the only upstream call is that fetch, so the LLM is not called;
    both tiers and the history are as before. *)
Theorem run_fetch_failure_or_empty now inp s :
  truthy (strip (query inp)) = true ->
  match news_search (length (calls s)) (query inp) (max_articles inp) with
  | inl _ => True
  | inr articles => articles = []
  end ->
  let out := run_handler now inp s in
  result_of out = Ok tt
  /\ outer (state_of out) = outer s
  /\ inner (state_of out) = inner s
  /\ history (state_of out) = history s
  /\ calls (state_of out) = calls s ++ [FetchCall (query inp) (max_articles inp)]
  /\ widgets_of out =
       match news_search (length (calls s)) (query inp) (max_articles inp) with
       | inl msg =>
           [StSpinner (lit "Fetching articles from NewsAPI...");
            StError (lit "Failed to fetch articles: " ++ msg);
            LogException (lit "NewsAPI fetch failed");
            StInfo (lit "No articles found for this query.")]
       | inr _ =>
           [StSpinner (lit "Fetching articles from NewsAPI...");
            StInfo (lit "No articles found for this query.")]
       end.
Proof.
  intros Hq Hf out. subst out. unfold run_handler. rewrite Hq. simpl.
  unfold bind. rewrite fetch_step_eq.
  destruct (news_search _ _ _) as [msg|articles].
  - simpl. repeat split.
  - subst articles. simpl. repeat split.
Qed.



(** C10. The value of the "Cache TTL (minutes)" control changes nothing
    in a script run: result, state and page are the same for any two
    values.  The lifetime of an outer entry is the constant of line 54,
    24 hours: an entry stored at [t0] is served at [now] exactly when
    [now < t0 + 86400]. *)
Theorem cache_ttl_control_has_no_effect now inp s m1 m2 :
  app_script now (with_cache_ttl_minutes m1 inp) s
    = app_script now (with_cache_ttl_minutes m2 inp) s
  /\ run_handler now (with_cache_ttl_minutes m1 inp) s
    = run_handler now (with_cache_ttl_minutes m2 inp) s
  /\ ui_ttl = 24 * 60 * 60
  /\ (forall k v t0 o,
        outer_lookup ui_ttl now k (<[k := (v, t0)]> o)
        = if now <? t0 + 86400 then Some v else None)
  /\ (forall q n v t0,
        result_of (get_summary_cached_ui now q n
                     (set_outer (<[(q, n) := (v, t0)]> (outer s)) s))
        = if now <? t0 + 86400 then Ok v
          else result_of (get_summary_cached_module q n s)).
Proof.
  assert (Hl : forall k v t0 o,
             outer_lookup ui_ttl now k (<[k := (v, t0)]> o)
             = if now <? t0 + 86400 then Some v else None).
  { intros k v t0 o. unfold outer_lookup. rewrite lookup_insert_eq. reflexivity. }
  repeat split; try exact Hl.
  intros q n v t0. rewrite cached_ui_eq. simpl. rewrite Hl.
  destruct (now <? t0 + 86400); [reflexivity|].
  simpl.
  replace (get_summary_cached_module q n
             (set_outer (<[(q, n):=(v, t0)]> (outer s)) s))
    with (let x := get_summary_cached_module q n s in
          (result_of x, set_outer (<[(q, n):=(v, t0)]> (outer s)) (state_of x),
           widgets_of x)).
  - simpl. destruct (result_of (get_summary_cached_module q n s)); reflexivity.
  - unfold get_summary_cached_module. simpl.
    destruct (inner s !! (q, n)); [reflexivity|].
    rewrite !get_summary_eq. simpl.
    destruct (news_search _ q n); [reflexivity|].
    destruct (llm_summarize _ _); reflexivity.
Qed.

(** *** The life of a key *)

Lemma key_status_UNSET now k s :
  key_status now k s = UNSET ->
  outer_lookup ui_ttl now k (outer s) = None /\ inner s !! k = None.
Proof.
  unfold key_status.
  destruct (outer_lookup _ _ _ _); destruct (inner s !! k); try discriminate.
  split; reflexivity.
Qed.

(** The two states a first, successful call goes through. *)
Lemma first_call_states now q n s v :
  key_status now (q, n) s = UNSET ->
  result_of (get_summary q n s) = Ok v ->
  let mid := state_of (get_summary_cached_module q n s) in
  let s1 := state_of (get_summary_cached_ui now q n s) in
  result_of (get_summary_cached_ui now q n s) = Ok v
  /\ outer mid = outer s
  /\ inner mid !! (q, n) = Some v
  /\ outer s1 !! (q, n) = Some (v, now)
  /\ inner s1 !! (q, n) = Some v.
Proof.
  intros Hu Hv mid s1. subst mid s1.
  destruct (key_status_UNSET _ _ _ Hu) as (Ho & Hi).
  destruct (get_summary_frame q n s) as (Hfo & _).
  rewrite cached_ui_eq, Ho, cached_module_eq, Hi. simpl. rewrite Hv. simpl.
  rewrite !lookup_insert_eq. repeat split. exact Hfo.
Qed.

(** The status of the key at each stage of a first, successful call. *)
Lemma first_call_statuses now q n s v :
  key_status now (q, n) s = UNSET ->
  result_of (get_summary q n s) = Ok v ->
  let mid := state_of (get_summary_cached_module q n s) in
  let s1 := state_of (get_summary_cached_ui now q n s) in
  key_status now (q, n) mid = CACHED_inner_only
  /\ (forall t, t < now + ui_ttl -> key_status t (q, n) s1 = CACHED_outer_inner)
  /\ (forall t, now + ui_ttl <= t -> key_status t (q, n) s1 = CACHED_inner_only)
  /\ (forall t, key_status t (q, n) (state_of (clear_all_caches s1)) = UNSET).
Proof.
  intros Hu Hv mid s1.
  destruct (first_call_states now q n s v Hu Hv) as (Hr & Hmo & Hmi & Hso & Hsi).
  fold mid in Hmo, Hmi. fold s1 in Hso, Hsi.
  destruct (key_status_UNSET _ _ _ Hu) as (Ho & _).
  split; [|split; [|split]].
  - unfold key_status. rewrite Hmo, Ho, Hmi. reflexivity.
  - intros t Ht. unfold key_status, outer_lookup. rewrite Hso, Hsi.
    destruct (Z.ltb_spec t (now + ui_ttl)); [reflexivity|lia].
  - intros t Ht. unfold key_status, outer_lookup. rewrite Hso, Hsi.
    destruct (Z.ltb_spec t (now + ui_ttl)); [lia|reflexivity].
  - intros t. rewrite clear_all_caches_eq. unfold key_status. simpl.
    rewrite outer_lookup_empty, lookup_empty. reflexivity.
Qed.

Lemma observed_lifecycle_first_call now q n s v :
  key_status now (q, n) s = UNSET ->
  result_of (get_summary q n s) = Ok v ->
  observed_lifecycle now q n s
  = [UNSET; CACHED_inner_only; CACHED_outer_inner; CACHED_inner_only; UNSET].
Proof.
  intros Hu Hv.
  destruct (first_call_statuses now q n s v Hu Hv) as (Hmid & Hlive & Hexp & Hclr).
  unfold observed_lifecycle.
  rewrite Hu, Hmid, Hclr, (Hexp (now + ui_ttl)) by lia.
  rewrite (Hlive now) by (unfold ui_ttl; lia). reflexivity.
Qed.

(** C9, as the program has it.  The lifetime of an outer entry is 24
    hours, an inner entry has none.  A key in neither tier whose
    computation succeeds is first in the inner tier only (the inner wrapper
    has returned, the outer one has not stored yet), then in both; 24 hours
    later the outer entry is no longer served and the inner one is still
    there; "Clear all caches" unsets the key, and no script run without
    that button removes an inner entry.  Between script runs no key is
    ever in the outer tier alone. *)
Theorem key_lifecycle now q n s v :
  key_status now (q, n) s = UNSET ->
  result_of (get_summary q n s) = Ok v ->
  let mid := state_of (get_summary_cached_module q n s) in
  let s1 := state_of (get_summary_cached_ui now q n s) in
  ui_ttl = 24 * 60 * 60
  /\ key_status now (q, n) mid = CACHED_inner_only
  /\ (forall t, now <= t < now + ui_ttl ->
        key_status t (q, n) s1 = CACHED_outer_inner)
  /\ (forall t, now + ui_ttl <= t ->
        key_status t (q, n) s1 = CACHED_inner_only
        /\ inner s1 !! (q, n) = Some v)
  /\ (forall t, key_status t (q, n) (state_of (clear_all_caches s1)) = UNSET)
  /\ (forall t inp s',
        clear_all_pressed inp = false ->
        inner s' !! (q, n) = Some v ->
        inner (state_of (app_script t inp s')) !! (q, n) = Some v)
  /\ (forall t k s', reachable s' -> key_status t k s' <> CACHED_outer)
  /\ observed_lifecycle now q n s
     = [UNSET; CACHED_inner_only; CACHED_outer_inner; CACHED_inner_only; UNSET].
Proof.
  intros Hu Hv mid s1.
  destruct (first_call_states now q n s v Hu Hv) as (_ & _ & _ & _ & Hsi).
  destruct (first_call_statuses now q n s v Hu Hv) as (Hmid & Hlive & Hexp & Hclr).
  fold s1 in Hsi, Hlive, Hexp, Hclr. fold mid in Hmid.
  split; [reflexivity|]. split; [exact Hmid|].
  split; [intros t [_ Ht]; apply Hlive, Ht|].
  split; [intros t Ht; split; [apply Hexp, Ht | exact Hsi]|].
  split; [exact Hclr|].
  split; [intros t inp s' Hc Hk; apply app_script_keeps_inner; assumption|].
  split; [intros t k s' Hs'; apply coherent_never_outer_only, reachable_coherent, Hs'|].
  exact (observed_lifecycle_first_call now q n s v Hu Hv).
Qed.

(** ** Further properties of the script *)

(** *** Blank queries *)

Lemma lstrip_nil_iff s : lstrip s = [] <-> forallb isspace s = true.
Proof.
  induction s as [|c s IH]; simpl; [tauto|].
  destruct (isspace c); simpl; [exact IH|]. split; discriminate.
Qed.

Lemma lstrip_head s :
  match lstrip s with
  | [] => True
  | c :: _ => isspace c = false
  end.
Proof.
  induction s as [|c s IH]; simpl; [exact I|].
  destruct (isspace c) eqn:E; [exact IH|]. exact E.
Qed.

Lemma forallb_rev {A} (f : A -> bool) l : forallb f (rev l) = forallb f l.
Proof.
  induction l as [|x l IH]; simpl; [reflexivity|].
  rewrite forallb_app, IH. simpl. rewrite andb_true_r. apply andb_comm.
Qed.

Lemma strip_nil_iff s : strip s = [] <-> forallb isspace s = true.
Proof.
  unfold strip, rstrip. split.
  - intros H. apply (f_equal (@rev N)) in H. rewrite rev_involutive in H.
    simpl in H. apply lstrip_nil_iff in H. rewrite forallb_rev in H.
    pose proof (lstrip_head s) as Hh.
    destruct (lstrip s) as [|c r] eqn:E.
    + apply lstrip_nil_iff. exact E.
    + simpl in H. rewrite Hh in H. discriminate.
  - intros H. apply lstrip_nil_iff in H. rewrite H. reflexivity.
Qed.

(** [not query.strip()] holds exactly for a query of white space. *)
Lemma truthy_strip s : truthy (strip s) = negb (forallb isspace s).
Proof.
  destruct (forallb isspace s) eqn:E.
  - apply strip_nil_iff in E. rewrite E. reflexivity.
  - destruct (strip s) as [|c r] eqn:Es; [|reflexivity].
    apply strip_nil_iff in Es. congruence.
Qed.

(** *** The upstream calls of a run *)

Lemma summarize_step_calls now inp s :
  calls (state_of (summarize_step now inp s))
  = calls (state_of (get_summary_cached_ui now (query inp) (max_articles inp) s)).
Proof.
  rewrite summarize_step_eq. simpl.
  destruct (result_of (get_summary_cached_ui _ _ _ _)) as [v|e]; [|reflexivity].
  destruct v; reflexivity.
Qed.

(** The calls a cached call adds: none unless the key is in neither tier. *)
Lemma cached_ui_new_calls now q n s :
  calls (state_of (get_summary_cached_ui now q n s)) =
  calls s ++
  match key_status now (q, n) s with
  | UNSET =>
      match news_search (length (calls s)) q n with
      | inl _ => [FetchCall q n]
      | inr articles => [FetchCall q n; LLMCall (concat_text articles)]
      end
  | _ => []
  end.
Proof.
  rewrite cached_ui_calls, cached_module_calls, get_summary_calls.
  unfold key_status.
  destruct (outer_lookup _ _ _ _); destruct (inner s !! (q, n));
    rewrite ?app_nil_r; try reflexivity.
  destruct (news_search _ q n); reflexivity.
Qed.

(** The calls a press on "Run" adds. *)
Lemma run_handler_new_calls now inp s :
  calls (state_of (run_handler now inp s)) =
  calls s ++
  if forallb isspace (query inp) then []
  else
    match news_search (length (calls s)) (query inp) (max_articles inp) with
    | inr (_ :: _) =>
        FetchCall (query inp) (max_articles inp)
        :: match key_status now (query inp, max_articles inp) s with
           | UNSET =>
               match news_search (S (length (calls s))) (query inp) (max_articles inp) with
               | inl _ => [FetchCall (query inp) (max_articles inp)]
               | inr articles =>
                   [FetchCall (query inp) (max_articles inp);
                    LLMCall (concat_text articles)]
               end
           | _ => []
           end
    | _ => [FetchCall (query inp) (max_articles inp)]
    end.
Proof.
  destruct (forallb isspace (query inp)) eqn:Hb.
  - unfold run_handler. rewrite truthy_strip, Hb. simpl.
    rewrite app_nil_r. reflexivity.
  - assert (Hq : truthy (strip (query inp)) = true)
      by (rewrite truthy_strip, Hb; reflexivity).
    destruct (news_search (length (calls s)) (query inp) (max_articles inp))
      as [msg|[|a l]] eqn:Hf.
    + unfold run_handler. rewrite Hq. simpl. unfold bind.
      rewrite fetch_step_eq, Hf. reflexivity.
    + unfold run_handler. rewrite Hq. simpl. unfold bind.
      rewrite fetch_step_eq, Hf. reflexivity.
    + rewrite (run_handler_fetched now inp s a l Hq Hf). simpl state_of.
      rewrite summarize_step_calls, cached_ui_new_calls.
      rewrite length_calls_log.
      change (key_status now (query inp, max_articles inp)
                (log_call (FetchCall (query inp) (max_articles inp)) s))
        with (key_status now (query inp, max_articles inp) s).
      simpl calls at 1. rewrite <- app_assoc. reflexivity.
Qed.

(** X1. A query made of white space only (the empty one included) gives the
    warning and nothing else: no upstream call, no change of state.  Any
    other query reaches the Fetcher, with the query as typed and the
    article count of the slider. *)
Theorem blank_query_only_warns now inp s :
  if forallb isspace (query inp)
  then run_handler now inp s = (Ok tt, s, [StWarning (lit "Please enter a query.")])
  else exists rest,
      calls (state_of (run_handler now inp s))
      = calls s ++ FetchCall (query inp) (max_articles inp) :: rest.
Proof.
  pose proof (run_handler_new_calls now inp s) as Hc.
  destruct (forallb isspace (query inp)) eqn:Hb.
  - unfold run_handler. rewrite truthy_strip, Hb. reflexivity.
  - rewrite Hc.
    destruct (news_search _ _ _) as [msg|[|a l]]; eauto.
Qed.

(** *** No exception leaves a run *)

Lemma returns_ret {A} (a : A) : returns (ret a).
Proof. intros s. exists a. reflexivity. Qed.

Lemma returns_emit w : returns (emit w).
Proof. intros s. exists tt. reflexivity. Qed.

Lemma returns_bind {A B} (m : App A) (k : A -> App B) :
  returns m -> (forall a, returns (k a)) -> returns (bind m k).
Proof.
  intros Hm Hk s. destruct (Hm s) as [a Ha]. unfold bind.
  destruct (m s) as [[r s1] w1]. simpl in Ha. subst r.
  destruct (Hk a s1) as [b Hb].
  destruct (k a s1) as [[r2 s2] w2]. simpl in *. eauto.
Qed.

Lemma returns_try_except {A} (m : App A) (h : exn -> App A) :
  (forall e, returns (h e)) -> returns (try_except m h).
Proof.
  intros Hh s. unfold try_except.
  destruct (m s) as [[[a|e] s1] w1]; [exists a; reflexivity|].
  destruct (Hh e s1) as [b Hb].
  destruct (h e s1) as [[r2 s2] w2]. simpl in *. eauto.
Qed.

Lemma page_only_returns (m : App unit) : page_only m -> returns m.
Proof. intros Hm s. exists tt. apply Hm. Qed.

Lemma returns_unit (m : App unit) s : returns m -> result_of (m s) = Ok tt.
Proof. intros Hm. destruct (Hm s) as [[] H]. exact H. Qed.

Lemma returns_summarize_step now inp : returns (summarize_step now inp).
Proof.
  intros s. exists tt. rewrite summarize_step_eq. simpl.
  destruct (result_of (get_summary_cached_ui _ _ _ _)); reflexivity.
Qed.

Lemma returns_fetch_step inp : returns (fetch_step inp).
Proof.
  unfold fetch_step. apply returns_try_except. intros e.
  repeat (apply returns_bind; [apply returns_emit|intros _]).
  apply returns_ret.
Qed.

Lemma returns_run_handler now inp : returns (run_handler now inp).
Proof.
  unfold run_handler. destruct (negb _); [apply returns_emit|].
  apply returns_bind; [apply returns_fetch_step|].
  intros [|a l]; [apply returns_emit|].
  apply returns_bind; [apply page_only_returns, page_only_show_articles|intros _].
  apply returns_bind;
    [apply page_only_returns, page_only_token_estimate_step|intros _].
  apply returns_summarize_step.
Qed.

Lemma returns_clear_all_button inp : returns (clear_all_button inp).
Proof.
  unfold clear_all_button. destruct (clear_all_pressed inp); [|apply returns_ret].
  intros s. exists tt. reflexivity.
Qed.

Lemma returns_developer_tools inp : returns (developer_tools inp).
Proof.
  unfold developer_tools.
  apply returns_bind; [apply returns_emit|intros _].
  apply returns_bind; [|intros _; apply returns_emit].
  destruct (clear_streamlit_pressed inp); [|apply returns_ret].
  apply returns_try_except. intros e. apply returns_emit.
Qed.

Lemma returns_sidebar inp : returns (sidebar inp).
Proof.
  unfold sidebar.
  repeat (apply returns_bind; [apply returns_emit|intros _]).
  apply returns_clear_all_button.
Qed.

Lemma returns_run_section now inp :
  returns (if run_pressed inp then run_handler now inp else ret tt).
Proof.
  destruct (run_pressed inp); [apply returns_run_handler | apply returns_ret].
Qed.

Lemma returns_footer : returns footer.
Proof.
  unfold footer. apply returns_bind; [apply returns_emit|intros _].
  apply returns_emit.
Qed.

(** X8. Every exception raised by the page-level fetch, by the cached
    summarisation or by [estimate_tokens] is caught inside the run: for
    articles as the data model has them (each field a text or absent),
    whatever the two services answer or raise, whatever [estimate_tokens]
    returns or raises and whichever buttons are pressed, the run returns
    and the page ends with the footer.  An article with a field of another
    type is not an [Article]: this says nothing of such a run. *)
Theorem app_script_never_raises now inp s :
  result_of (app_script now inp s) = Ok tt
  /\ exists page,
       widgets_of (app_script now inp s)
       = StTitle (lit "Equity Research News Tool") :: page ++ widgets_of (footer s).
Proof.
  assert (Hr : returns (app_script now inp)).
  { unfold app_script.
    apply returns_bind; [apply returns_emit|intros _].
    apply returns_bind; [apply returns_sidebar|intros _].
    apply returns_bind; [apply returns_run_section|intros _].
    apply returns_bind; [apply page_only_returns, page_only_history_panel|intros _].
    apply returns_bind; [apply returns_developer_tools|intros _].
    apply returns_footer. }
  split; [apply returns_unit, Hr|].
  unfold app_script.
  pose proof (returns_unit (sidebar inp)) as H1.
  pose proof (returns_unit (if run_pressed inp then run_handler now inp else ret tt)) as H2.
  pose proof (returns_unit history_panel) as H3.
  pose proof (returns_unit (developer_tools inp)) as H4.
  unfold bind at 1. simpl.
  unfold bind at 1.
  specialize (H1 s (returns_sidebar inp)).
  destruct (sidebar inp s) as [[r1 s1] w1]. simpl in H1. subst r1.
  unfold bind at 1.
  specialize (H2 s1 (returns_run_section now inp)).
  destruct ((if run_pressed inp then run_handler now inp else ret tt) s1)
    as [[r2 s2] w2]. simpl in H2. subst r2.
  unfold bind at 1.
  specialize (H3 s2 (page_only_returns _ page_only_history_panel)).
  destruct (history_panel s2) as [[r3 s3] w3]. simpl in H3. subst r3.
  unfold bind at 1.
  specialize (H4 s3 (returns_developer_tools inp)).
  destruct (developer_tools inp s3) as [[r4 s4] w4]. simpl in H4. subst r4.
  simpl. exists (w1 ++ w2 ++ w3 ++ w4).
  rewrite <- !app_assoc. reflexivity.
Qed.

(** *** What a whole run does to the state *)

Lemma state_bind_returns {B} (m : App unit) (k : unit -> App B) s :
  returns m ->
  state_of (bind m k s) = state_of (k tt (state_of (m s))).
Proof.
  intros Hm. pose proof (returns_unit m s Hm) as Hr. unfold bind.
  destruct (m s) as [[r s1] w1]. simpl in Hr. subst r. simpl.
  destruct (k tt s1) as [[r2 s2] w2]. reflexivity.
Qed.

Lemma state_page_only (m : App unit) s : page_only m -> state_of (m s) = s.
Proof. intros Hm. apply Hm. Qed.

(** The state after a run: the three handlers, in page order. *)
Lemma app_script_state now inp s :
  state_of (app_script now inp s) =
  state_of (developer_tools inp
    (state_of ((if run_pressed inp then run_handler now inp else ret tt)
       (state_of (clear_all_button inp s))))).
Proof.
  unfold app_script, sidebar.
  rewrite !(state_bind_returns (st_title _)) by apply returns_emit.
  rewrite (state_bind_returns (bind _ _)).
  2:{ repeat (apply returns_bind; [apply returns_emit|intros _]).
      apply returns_clear_all_button. }
  rewrite (state_bind_returns (if run_pressed inp then _ else _))
    by apply returns_run_section.
  rewrite (state_bind_returns history_panel)
    by apply page_only_returns, page_only_history_panel.
  rewrite (state_bind_returns (developer_tools inp))
    by apply returns_developer_tools.
  rewrite (state_page_only footer).
  2:{ unfold footer. apply page_only_bind; apply page_only_emit. }
  rewrite (state_page_only history_panel) by apply page_only_history_panel.
  rewrite !(state_bind_returns (st_markdown _)) by apply returns_emit.
  rewrite !(state_bind_returns (st_write _)) by apply returns_emit.
  rewrite !(state_bind_returns (st_markdown _)) by apply returns_emit.
  reflexivity.
Qed.

Lemma clear_all_button_state inp s :
  state_of (clear_all_button inp s)
  = if clear_all_pressed inp then set_inner ∅ (set_outer ∅ s) else s.
Proof. unfold clear_all_button. destruct (clear_all_pressed inp); reflexivity. Qed.

Lemma developer_tools_state inp s :
  state_of (developer_tools inp s)
  = if clear_streamlit_pressed inp then set_outer ∅ s else s.
Proof. unfold developer_tools. destruct (clear_streamlit_pressed inp); reflexivity. Qed.

(** *** The session history *)

Lemma summarize_step_history now inp s :
  history_list (state_of (summarize_step now inp s)) =
  match result_of (get_summary_cached_ui now (query inp) (max_articles inp) s) with
  | Ok (c :: v) => (query inp, c :: v) :: history_list s
  | _ => history_list s
  end.
Proof.
  destruct (cached_ui_frame now (query inp) (max_articles inp) s) as (Hh & _).
  rewrite summarize_step_eq. simpl. unfold history_list.
  destruct (result_of (get_summary_cached_ui _ _ _ _)) as [[|c v]|e]; simpl;
    rewrite Hh; reflexivity.
Qed.

Lemma run_handler_history now inp s :
  exists new,
    history_list (state_of (run_handler now inp s)) = new ++ history_list s
    /\ (new = [] \/ exists c v, new = [(query inp, c :: v)]).
Proof.
  destruct (truthy (strip (query inp))) eqn:Hq.
  2:{ exists []. split; [|left; reflexivity].
      unfold run_handler. rewrite Hq. reflexivity. }
  destruct (news_search (length (calls s)) (query inp) (max_articles inp))
    as [msg|[|a l]] eqn:Hf.
  - exists []. split; [|left; reflexivity].
    unfold run_handler. rewrite Hq. simpl. unfold bind.
    rewrite fetch_step_eq, Hf. reflexivity.
  - exists []. split; [|left; reflexivity].
    unfold run_handler. rewrite Hq. simpl. unfold bind.
    rewrite fetch_step_eq, Hf. reflexivity.
  - rewrite (run_handler_fetched now inp s a l Hq Hf). simpl state_of.
    rewrite summarize_step_history.
    destruct (result_of (get_summary_cached_ui _ _ _ _)) as [[|c v]|e].
    + exists []. split; [reflexivity|left; reflexivity].
    + exists [(query inp, c :: v)]. split; [reflexivity|right; eauto].
    + exists []. split; [reflexivity|left; reflexivity].
Qed.

(** X2. A script run never drops or reorders a history entry, whichever
    buttons are pressed ("Clear all caches" included): the history after the
    run is the history before it, with at most one new entry in front,
    which pairs the query as typed with a non-empty summary. *)
Theorem history_only_grows_at_front now inp s :
  exists new,
    history_list (state_of (app_script now inp s)) = new ++ history_list s
    /\ (new = [] \/ exists c v, run_pressed inp = true /\ new = [(query inp, c :: v)]).
Proof.
  rewrite app_script_state, developer_tools_state.
  set (s0 := state_of (clear_all_button inp s)).
  assert (H0 : history_list s0 = history_list s).
  { subst s0. rewrite clear_all_button_state.
    destruct (clear_all_pressed inp); reflexivity. }
  assert (Hrun : exists new,
             history_list
               (state_of ((if run_pressed inp then run_handler now inp else ret tt) s0))
             = new ++ history_list s
             /\ (new = [] \/ exists c v,
                    run_pressed inp = true /\ new = [(query inp, c :: v)])).
  { destruct (run_pressed inp).
    - destruct (run_handler_history now inp s0) as (new & E & Hn).
      exists new. rewrite E, H0. split; [reflexivity|].
      destruct Hn as [->|(c & v & ->)]; [left; reflexivity|right; eauto].
    - exists []. split; [exact H0|left; reflexivity]. }
  destruct Hrun as (new & E & Hn). exists new. split; [|exact Hn].
  destruct (clear_streamlit_pressed inp); exact E.
Qed.

(** X9. A script run makes at most three upstream calls, at most one of
    them to the LLM, and none at all unless "Run" is pressed; the first
    call of a run, if any, is the page-level fetch. *)
Theorem app_script_upstream_calls now inp s :
  exists new,
    calls (state_of (app_script now inp s)) = calls s ++ new
    /\ (length new <= 3)%nat
    /\ (length (filter is_llm_call new) <= 1)%nat
    /\ (new = [] \/ exists rest,
          run_pressed inp = true
          /\ new = FetchCall (query inp) (max_articles inp) :: rest).
Proof.
  rewrite app_script_state, developer_tools_state.
  set (s0 := state_of (clear_all_button inp s)).
  assert (H0 : calls s0 = calls s).
  { subst s0. rewrite clear_all_button_state.
    destruct (clear_all_pressed inp); reflexivity. }
  assert (Hrun : exists new,
             calls (state_of ((if run_pressed inp then run_handler now inp
                               else ret tt) s0)) = calls s ++ new
             /\ (length new <= 3)%nat
             /\ (length (filter is_llm_call new) <= 1)%nat
             /\ (new = [] \/ exists rest,
                   run_pressed inp = true
                   /\ new = FetchCall (query inp) (max_articles inp) :: rest)).
  { destruct (run_pressed inp).
    - rewrite run_handler_new_calls, H0.
      destruct (forallb isspace (query inp)).
      { exists []. simpl. split; [reflexivity|]. split; [lia|]. split; [lia|].
        left; reflexivity. }
      destruct (news_search (length (calls s)) _ _) as [msg|[|a l]];
        [| |destruct (key_status now _ s0);
            [destruct (news_search (S (length (calls s))) _ _)|..]];
        (eexists; split; [reflexivity|]; simpl;
         split; [lia|]; split; [lia|]; right; eauto).
    - exists []. simpl. rewrite app_nil_r.
      split; [exact H0|]. split; [lia|]. split; [lia|]. left; reflexivity. }
  destruct Hrun as (new & E & Hn). exists new. split; [|exact Hn].
  destruct (clear_streamlit_pressed inp); exact E.
Qed.

(** *** What the page lists *)

Lemma for_each_emits {A} (xs : list A) (f : A -> App unit) (g : A -> list Widget) :
  (forall x s, f x s = (Ok tt, s, g x)) ->
  forall s, for_each xs f s = (Ok tt, s, concat (map g xs)).
Proof.
  intros Hf. induction xs as [|x xs IH]; intros s; simpl; [reflexivity|].
  unfold bind. rewrite Hf, IH. reflexivity.
Qed.

Lemma length_concat_pairs {A} (g1 g2 : A -> Widget) xs :
  length (concat (map (fun x => [g1 x; g2 x]) xs)) = (2 * length xs)%nat.
Proof. induction xs as [|x xs IH]; simpl; [reflexivity|]. rewrite IH. lia. Qed.

Lemma concat_singletons {A} (g : A -> Widget) xs :
  concat (map (fun x => [g x]) xs) = map g xs.
Proof. induction xs as [|x xs IH]; simpl; [reflexivity|]. rewrite IH. reflexivity. Qed.

Lemma show_article_eq a s :
  show_article a s = (Ok tt, s, [StWrite (article_line a)]).
Proof.
  unfold show_article, article_line. destruct (url a) as [[|c u]|]; reflexivity.
Qed.

(** X4. The header of the article list gives the number of articles
    fetched, but the list itself stops after thirty: one line per article,
    in the order fetched, for the first thirty only. *)
Theorem show_articles_lists_thirty articles s :
  show_articles articles s =
  (Ok tt, s,
   StMarkdown (lit "### Fetched articles (" ++ str_of_Z (Z.of_nat (length articles))
               ++ lit ")")
   :: map (fun a => StWrite (article_line a)) (firstn 30 articles))
  /\ length (widgets_of (show_articles articles s))
     = (1 + Nat.min (length articles) 30)%nat.
Proof.
  assert (E : show_articles articles s =
              (Ok tt, s,
               StMarkdown (lit "### Fetched articles ("
                           ++ str_of_Z (Z.of_nat (length articles)) ++ lit ")")
               :: map (fun a => StWrite (article_line a)) (firstn 30 articles))).
  { unfold show_articles, bind. simpl.
    rewrite (for_each_emits _ show_article (fun a => [StWrite (article_line a)]))
      by apply show_article_eq.
    rewrite concat_singletons. simpl.
    replace (firstn (Nat.min (length articles) 30) articles)
      with (firstn 30 articles); [reflexivity|].
    destruct (Nat.le_ge_cases (length articles) 30) as [H|H].
    - rewrite (Nat.min_l _ _ H), !firstn_all2 by lia. reflexivity.
    - rewrite (Nat.min_r _ _ H). reflexivity. }
  split; [exact E|].
  rewrite E. simpl. rewrite length_map, length_firstn. lia.
Qed.

Lemma history_panel_eq s :
  history_panel s =
  (Ok tt, s,
   match history_list s with
   | [] => []
   | _ :: _ =>
       StMarkdown (lit "### Recent queries")
       :: concat (map (fun h => [StWrite (lit "**" ++ fst h ++ lit "**");
                                 StWrite (summary_preview (snd h))])
                    (firstn 10 (history_list s)))
   end).
Proof.
  unfold history_panel, history_list.
  destruct (history s) as [[|h hs]|]; try reflexivity.
  unfold bind at 1. unfold st_markdown, emit. cbv beta iota. simpl default.
  rewrite (for_each_emits _ _
             (fun h => [StWrite (lit "**" ++ fst h ++ lit "**");
                        StWrite (summary_preview (snd h))])).
  - reflexivity.
  - intros x s0. reflexivity.
Qed.

Lemma summary_preview_short v :
  (length v <= 300)%nat -> summary_preview v = v.
Proof.
  intros H. unfold summary_preview.
  destruct (Nat.ltb_spec 300 (length v)); [lia|].
  rewrite firstn_all2 by lia. apply app_nil_r.
Qed.

Lemma summary_preview_long v :
  (300 < length v)%nat -> summary_preview v = firstn 300 v ++ lit "...".
Proof.
  intros H. unfold summary_preview.
  destruct (Nat.ltb_spec 300 (length v)); [reflexivity|lia].
Qed.

(** X3. The history panel is absent while the history is empty; otherwise
    it is the heading "### Recent queries" followed, for the ten newest
    entries only and newest first, by two lines each: the query in bold,
    then the summary, whole when it has at most 300 code points and cut to
    its first 300 followed by "..." when it is longer. *)
Theorem history_panel_shows_ten_previews s :
  history_panel s =
    (Ok tt, s,
     match history_list s with
     | [] => []
     | _ :: _ =>
         StMarkdown (lit "### Recent queries")
         :: concat (map (fun h => [StWrite (lit "**" ++ fst h ++ lit "**");
                                   StWrite (summary_preview (snd h))])
                      (firstn 10 (history_list s)))
     end)
  /\ result_of (history_panel s) = Ok tt
  /\ state_of (history_panel s) = s
  /\ length (widgets_of (history_panel s))
     = match history_list s with
       | [] => 0%nat
       | _ :: _ => (1 + 2 * Nat.min 10 (length (history_list s)))%nat
       end
  /\ (forall i q v,
        nth_error (history_list s) i = Some (q, v) ->
        (i < 10)%nat ->
        In (StWrite (lit "**" ++ q ++ lit "**")) (widgets_of (history_panel s))
        /\ In (StWrite (summary_preview v)) (widgets_of (history_panel s)))
  /\ (forall v,
        (length (summary_preview v) <= 303)%nat
        /\ ((length v <= 300)%nat -> summary_preview v = v)
        /\ ((300 < length v)%nat -> summary_preview v = firstn 300 v ++ lit "...")).
Proof.
  rewrite history_panel_eq. unfold result_of, state_of, widgets_of. cbn [fst snd].
  split; [reflexivity|].
  split; [reflexivity|]. split; [reflexivity|]. split; [|split].
  - destruct (history_list s) as [|h hs] eqn:E; [reflexivity|].
    cbn [length]. rewrite length_concat_pairs, length_firstn.
    change (length (h :: hs)) with (S (length hs)). lia.
  - intros i q v Hi Hlt.
    destruct (history_list s) as [|h hs] eqn:E; [destruct i; discriminate|].
    assert (Hin : In (q, v) (firstn 10 (h :: hs))).
    { apply (nth_error_In _ i). rewrite nth_error_firstn.
      destruct (Nat.ltb_spec i 10); [exact Hi|lia]. }
    split; right; apply in_concat;
      eexists; (split; [apply in_map, Hin|]); simpl; auto.
  - intros v. split; [|split].
    + destruct (Nat.le_gt_cases (length v) 300) as [H|H].
      * rewrite summary_preview_short by exact H. lia.
      * rewrite summary_preview_long by exact H.
        rewrite length_app, length_firstn.
        change (length (lit "...")) with 3%nat. lia.
    + apply summary_preview_short.
    + apply summary_preview_long.
Qed.

(** *** Summaries that are served from a tier *)

(** On a state between script runs, a key of the inner tier is answered
    with its inner value and without any upstream call, at every instant. *)
Lemma cached_ui_inner_value now q n s v :
  tiers_coherent s ->
  inner s !! (q, n) = Some v ->
  result_of (get_summary_cached_ui now q n s) = Ok v
  /\ calls (state_of (get_summary_cached_ui now q n s)) = calls s
  /\ inner (state_of (get_summary_cached_ui now q n s)) = inner s
  /\ history (state_of (get_summary_cached_ui now q n s)) = history s.
Proof.
  intros Hc Hi. rewrite cached_ui_eq.
  destruct (outer_lookup _ _ _ _) as [v'|] eqn:Hl.
  - apply outer_lookup_Some in Hl as (t0 & Hl & _).
    apply Hc in Hl. rewrite Hi in Hl. injection Hl as <-. repeat split.
  - rewrite cached_module_eq, Hi. repeat split.
Qed.

Lemma runs_without_clear_reachable s s' :
  runs_without_clear s s' -> reachable s -> reachable s'.
Proof.
  induction 1 as [|s s' now inp _ IH Hc]; intros Hr; [exact Hr|].
  apply reachable_run, IH, Hr.
Qed.

Lemma runs_without_clear_keep_inner s s' k v :
  runs_without_clear s s' -> inner s !! k = Some v -> inner s' !! k = Some v.
Proof.
  induction 1 as [|s s' now inp _ IH Hc]; intros Hk; [exact Hk|].
  apply app_script_keeps_inner; [exact Hc | exact (IH Hk)].
Qed.

(** X11. Once a summary is in the inner tier it is what every later call
    for that key returns, at any instant and after any number of script
    runs in which "Clear all caches" is not pressed, and no such call goes
    upstream: the 24 hours of the outer tier never bring a fresh summary. *)
Theorem cached_summary_is_frozen s s' q n v now :
  reachable s ->
  inner s !! (q, n) = Some v ->
  runs_without_clear s s' ->
  result_of (get_summary_cached_ui now q n s') = Ok v
  /\ calls (state_of (get_summary_cached_ui now q n s')) = calls s'
  /\ inner (state_of (get_summary_cached_ui now q n s')) !! (q, n) = Some v.
Proof.
  intros Hr Hi Hruns.
  pose proof (runs_without_clear_keep_inner s s' _ _ Hruns Hi) as Hi'.
  pose proof (reachable_coherent s' (runs_without_clear_reachable s s' Hruns Hr)) as Hc.
  destruct (cached_ui_inner_value now q n s' v Hc Hi') as (H1 & H2 & H3 & _).
  rewrite H3. auto.
Qed.

(** X5. When the summary returned is the empty string, it is stored like
    any other (the outer entry is live from then on) but the page shows
    nothing for it, neither summary nor message, and the history is left
    alone; a later run served from that entry shows nothing either. *)
Theorem empty_summary_is_cached_not_shown now inp s :
  result_of (get_summary_cached_ui now (query inp) (max_articles inp) s) = Ok [] ->
  let s1 := state_of (get_summary_cached_ui now (query inp) (max_articles inp) s) in
  summarize_step now inp s = (Ok tt, s1, [StSpinner (lit "Summarizing (calls LLM)...")])
  /\ history s1 = history s
  /\ outer_lookup ui_ttl now (query inp, max_articles inp) (outer s1) = Some []
  /\ forall now',
       outer_lookup ui_ttl now' (query inp, max_articles inp) (outer s1) <> None ->
       summarize_step now' inp s1
       = (Ok tt, s1, [StSpinner (lit "Summarizing (calls LLM)...")]).
Proof.
  intros H s1.
  destruct (cached_ui_frame now (query inp) (max_articles inp) s) as (Hh & _).
  pose proof (cached_ui_ok now _ _ s [] H) as Hl. fold s1 in Hl, Hh.
  split; [|split; [exact Hh|split; [exact Hl|]]].
  - rewrite summarize_step_eq. cbv zeta. rewrite H. reflexivity.
  - intros now' Hlive.
    apply outer_lookup_Some in Hl as (t0 & Hl & _).
    destruct (outer_lookup ui_ttl now' _ (outer s1)) as [v'|] eqn:Hl';
      [|congruence].
    pose proof Hl' as Hl2.
    apply outer_lookup_Some in Hl2 as (t1 & Hl2 & _).
    rewrite Hl in Hl2. injection Hl2 as <- _.
    rewrite summarize_step_eq. cbv zeta. rewrite cached_ui_eq, Hl'. reflexivity.
Qed.

(** X6. When the key has a live outer entry with a non-empty summary, a
    run still makes the page-level fetch, and that call only; it shows the
    summary of the entry, whatever articles that fetch has just returned,
    and puts it on top of the history; both tiers stay as they are. *)
Theorem run_on_cached_key now inp s a l c v :
  truthy (strip (query inp)) = true ->
  news_search (length (calls s)) (query inp) (max_articles inp) = inr (a :: l) ->
  outer_lookup ui_ttl now (query inp, max_articles inp) (outer s) = Some (c :: v) ->
  let out := run_handler now inp s in
  result_of out = Ok tt
  /\ calls (state_of out) = calls s ++ [FetchCall (query inp) (max_articles inp)]
  /\ outer (state_of out) = outer s
  /\ inner (state_of out) = inner s
  /\ history (state_of out) = Some ((query inp, c :: v) :: history_list s)
  /\ exists page,
       widgets_of out =
       page ++ [StSpinner (lit "Summarizing (calls LLM)...");
                StMarkdown (lit "### Summary");
                StWrite (c :: v);
                StDownloadButton (lit "Download summary (txt)") (c :: v)
                  (lit "summary.txt")].
Proof.
  intros Hq Hf Hl out. subst out.
  rewrite (run_handler_fetched now inp s a l Hq Hf).
  set (s1 := log_call (FetchCall (query inp) (max_articles inp)) s).
  assert (E : summarize_step now inp s1 =
              (Ok tt,
               set_history (Some ((query inp, c :: v) :: history_list s)) s1,
               [StSpinner (lit "Summarizing (calls LLM)...");
                StMarkdown (lit "### Summary");
                StWrite (c :: v);
                StDownloadButton (lit "Download summary (txt)") (c :: v)
                  (lit "summary.txt")])).
  { rewrite summarize_step_eq. cbv zeta. rewrite cached_ui_eq.
    change (outer s1) with (outer s). rewrite Hl. reflexivity. }
  rewrite E. unfold result_of, state_of, widgets_of. cbn [fst snd].
  split; [reflexivity|]. split; [reflexivity|]. split; [reflexivity|].
  split; [reflexivity|]. split; [reflexivity|].
  exists (StSpinner (lit "Fetching articles from NewsAPI...")
          :: snd (show_articles (a :: l) s1)
          ++ snd (token_estimate_step (concat_text (a :: l)) s1)).
  rewrite <- app_comm_cons, <- app_assoc. reflexivity.
Qed.

(** X7. "Clear Streamlit cache only" empties the outer tier and nothing
    else.  A key of the inner tier is therefore not recomputed afterwards:
    the next call returns the inner value without any upstream call and
    writes it back to the outer tier, stamped with the instant of that call. *)
Theorem clear_streamlit_only_keeps_inner now inp s q n v :
  clear_streamlit_pressed inp = true ->
  inner s !! (q, n) = Some v ->
  let s' := state_of (developer_tools inp s) in
  developer_tools inp s =
    (Ok tt, set_outer ∅ s,
     [StWrite (lit "Use these when developing to inspect/clear caches.");
      StSuccess (lit "Cleared Streamlit cache.");
      StWrite (lit "Module-level cached function available: get_summary_cached_module(query, max_articles)")])
  /\ key_status now (q, n) s' = CACHED_inner_only
  /\ get_summary_cached_ui now q n s'
     = (Ok v, set_outer (<[(q, n) := (v, now)]> ∅) s', []).
Proof.
  intros Hp Hi s'.
  assert (E : developer_tools inp s =
              (Ok tt, set_outer ∅ s,
               [StWrite (lit "Use these when developing to inspect/clear caches.");
                StSuccess (lit "Cleared Streamlit cache.");
                StWrite (lit "Module-level cached function available: get_summary_cached_module(query, max_articles)")])).
  { unfold developer_tools. rewrite Hp. reflexivity. }
  subst s'. rewrite E. simpl state_of. split; [reflexivity|]. split.
  - unfold key_status. simpl. rewrite outer_lookup_empty, Hi. reflexivity.
  - rewrite cached_ui_eq. simpl outer. rewrite outer_lookup_empty.
    rewrite cached_module_eq. simpl inner. rewrite Hi. reflexivity.
Qed.

(** The Fetcher failing inside the summarisation: the call raises the
    Fetcher's error and the LLM is not reached. *)
Lemma cached_ui_fetch_failure now q n s msg :
  key_status now (q, n) s = UNSET ->
  news_search (length (calls s)) q n = inl msg ->
  get_summary_cached_ui now q n s =
  (Raise (FetchError msg), log_call (FetchCall q n) s, []).
Proof.
  intros Hu Hf. destruct (key_status_UNSET _ _ _ Hu) as (Ho & Hi).
  rewrite cached_ui_eq, Ho, cached_module_eq, Hi, get_summary_eq, Hf.
  reflexivity.
Qed.

(** X10. When the page-level fetch has returned articles and the fetch
    made for the summary then fails, the page reports the Fetcher's message
    under the heading of the summarisation; the LLM is not called, nothing
    is stored, and the history is left alone. *)
Theorem fetch_failure_inside_summarization now inp s a l msg :
  truthy (strip (query inp)) = true ->
  news_search (length (calls s)) (query inp) (max_articles inp) = inr (a :: l) ->
  key_status now (query inp, max_articles inp) s = UNSET ->
  news_search (S (length (calls s))) (query inp) (max_articles inp) = inl msg ->
  let out := run_handler now inp s in
  result_of out = Ok tt
  /\ calls (state_of out)
     = calls s ++ [FetchCall (query inp) (max_articles inp);
                   FetchCall (query inp) (max_articles inp)]
  /\ outer (state_of out) = outer s
  /\ inner (state_of out) = inner s
  /\ history (state_of out) = history s
  /\ exists page,
       widgets_of out =
       page ++ [StSpinner (lit "Summarizing (calls LLM)...");
                StError (lit "Error during summarization: " ++ msg);
                LogException (lit "Summarization error")].
Proof.
  intros Hq Hf Hu Hf2 out. subst out.
  rewrite (run_handler_fetched now inp s a l Hq Hf).
  set (s1 := log_call (FetchCall (query inp) (max_articles inp)) s).
  assert (Hu1 : key_status now (query inp, max_articles inp) s1 = UNSET) by exact Hu.
  assert (Hf1 : news_search (length (calls s1)) (query inp) (max_articles inp)
                = inl msg).
  { subst s1. rewrite length_calls_log. exact Hf2. }
  rewrite summarize_step_eq. cbv zeta.
  rewrite (cached_ui_fetch_failure now _ _ s1 msg Hu1 Hf1).
  unfold result_of, state_of, widgets_of. cbn [fst snd].
  split; [reflexivity|]. split; [simpl; rewrite <- app_assoc; reflexivity|].
  split; [reflexivity|]. split; [reflexivity|]. split; [reflexivity|].
  exists (StSpinner (lit "Fetching articles from NewsAPI...")
          :: snd (show_articles (a :: l) s1)
          ++ snd (token_estimate_step (concat_text (a :: l)) s1)).
  rewrite <- app_comm_cons, <- app_assoc. reflexivity.
Qed.

(** *** Where the stored summaries come from *)

Lemma genuine_ext s s' ext q n v :
  calls s' = calls s ++ ext -> genuine s q n v -> genuine s' q n v.
Proof.
  intros E (t & articles & H1 & H2 & H3 & H4).
  exists t, articles. rewrite E.
  repeat split; try assumption; apply lookup_app_l_Some; assumption.
Qed.

Lemma all_genuine_step s s' ext :
  tiers_coherent s' ->
  history_list s' = history_list s ->
  calls s' = calls s ++ ext ->
  (forall q n v, inner s' !! (q, n) = Some v ->
                 inner s !! (q, n) = Some v \/ genuine s' q n v) ->
  all_genuine s -> all_genuine s'.
Proof.
  intros Hc Hh E Hi (_ & Gi & Gh). split; [exact Hc|]. split.
  - intros q n v Hk. destruct (Hi q n v Hk) as [H|H]; [|exact H].
    apply (genuine_ext s s' ext); [exact E | exact (Gi _ _ _ H)].
  - intros q v Hin. rewrite Hh in Hin. destruct (Gh q v Hin) as [n Hn].
    exists n. apply (genuine_ext s s' ext); assumption.
Qed.

(** A call of the cached entry point keeps the stored summaries genuine,
    and what it returns is genuine. *)
Lemma cached_ui_genuine now q n s :
  all_genuine s ->
  all_genuine (state_of (get_summary_cached_ui now q n s))
  /\ forall v, result_of (get_summary_cached_ui now q n s) = Ok v ->
               genuine (state_of (get_summary_cached_ui now q n s)) q n v.
Proof.
  intros Hg. pose proof Hg as (Hc & Gi & _).
  pose proof (cached_ui_coherent now q n s Hc) as Hc'.
  destruct (cached_ui_frame now q n s) as (Hh & _).
  assert (Hhl : history_list (state_of (get_summary_cached_ui now q n s))
                = history_list s) by (unfold history_list; rewrite Hh; reflexivity).
  destruct (inner s !! (q, n)) as [v0|] eqn:Hi.
  - destruct (cached_ui_inner_value now q n s v0 Hc Hi) as (Hr & Hcalls & Hin & _).
    assert (E : calls (state_of (get_summary_cached_ui now q n s)) = calls s ++ [])
      by (rewrite app_nil_r; exact Hcalls).
    split.
    + apply (all_genuine_step s _ []); try assumption.
      intros q' n' v' Hk. left. rewrite <- Hin. exact Hk.
    + intros v Hv. rewrite Hr in Hv. injection Hv as <-.
      apply (genuine_ext s _ []); [exact E | exact (Gi _ _ _ Hi)].
  - assert (Ho : outer_lookup ui_ttl now (q, n) (outer s) = None).
    { destruct (outer_lookup _ _ _ _) as [v|] eqn:Hl; [|reflexivity].
      apply outer_lookup_Some in Hl as (t0 & Hl & _).
      apply Hc in Hl. congruence. }
    revert Hc' Hhl.
    rewrite cached_ui_eq, Ho, cached_module_eq, Hi, get_summary_eq.
    destruct (news_search (length (calls s)) q n) as [msg|articles] eqn:Hn.
    { simpl. intros Hc' Hhl. split; [|discriminate].
      apply (all_genuine_step s _ [FetchCall q n]); auto. }
    simpl.
    destruct (llm_summarize (S (length (calls s))) (concat_text articles))
      as [msg|v] eqn:Hl.
    { simpl. intros Hc' Hhl. split; [|discriminate].
      apply (all_genuine_step s _ [FetchCall q n; LLMCall (concat_text articles)]);
        auto.
      simpl. rewrite <- app_assoc. reflexivity. }
    simpl. intros Hc' Hhl.
    assert (Gnew : forall s',
               calls s' = (calls s ++ [FetchCall q n]) ++ [LLMCall (concat_text articles)] ->
               genuine s' q n v).
    { intros s' E. exists (length (calls s)), articles. rewrite E.
      repeat split; try assumption.
      - rewrite <- app_assoc. apply list_lookup_middle. reflexivity.
      - apply list_lookup_middle. rewrite length_app. simpl. lia. }
    split.
    + apply (all_genuine_step s _ [FetchCall q n; LLMCall (concat_text articles)]);
        try assumption.
      * simpl. rewrite <- app_assoc. reflexivity.
      * intros q' n' v' Hk. simpl in Hk.
        destruct (decide ((q', n') = (q, n))) as [[= -> ->]|Hne].
        -- rewrite lookup_insert_eq in Hk. injection Hk as <-.
           right. apply Gnew. reflexivity.
        -- rewrite lookup_insert_ne in Hk by congruence. left. exact Hk.
    + intros v' [= <-]. apply Gnew. reflexivity.
Qed.

Lemma summarize_step_genuine now inp s :
  all_genuine s -> all_genuine (state_of (summarize_step now inp s)).
Proof.
  intros Hg.
  destruct (cached_ui_genuine now (query inp) (max_articles inp) s Hg) as (Hg' & Hv).
  rewrite summarize_step_eq. cbv zeta.
  destruct (result_of (get_summary_cached_ui _ _ _ _)) as [[|c v]|e]; simpl;
    try exact Hg'.
  destruct Hg' as (Hc & Gi & Gh).
  specialize (Hv (c :: v) eq_refl).
  split; [exact Hc|]. split; [exact Gi|].
  intros q' v' [[= <- <-]|Hin].
  - exists (max_articles inp). exact Hv.
  - apply Gh. exact Hin.
Qed.

Lemma log_call_genuine c s : all_genuine s -> all_genuine (log_call c s).
Proof.
  intros Hg. apply (all_genuine_step s _ [c]); auto. apply Hg.
Qed.

Lemma run_handler_genuine now inp s :
  all_genuine s -> all_genuine (state_of (run_handler now inp s)).
Proof.
  intros Hg.
  destruct (truthy (strip (query inp))) eqn:Hq.
  2:{ unfold run_handler. rewrite Hq. exact Hg. }
  destruct (news_search (length (calls s)) (query inp) (max_articles inp))
    as [msg|[|a l]] eqn:Hf.
  - unfold run_handler. rewrite Hq. simpl. unfold bind.
    rewrite fetch_step_eq, Hf. simpl. apply log_call_genuine, Hg.
  - unfold run_handler. rewrite Hq. simpl. unfold bind.
    rewrite fetch_step_eq, Hf. simpl. apply log_call_genuine, Hg.
  - rewrite (run_handler_fetched now inp s a l Hq Hf). simpl state_of.
    apply summarize_step_genuine, log_call_genuine, Hg.
Qed.

Lemma app_script_genuine now inp s :
  all_genuine s -> all_genuine (state_of (app_script now inp s)).
Proof.
  intros Hg. rewrite app_script_state, developer_tools_state.
  assert (H0 : all_genuine (state_of (clear_all_button inp s))).
  { rewrite clear_all_button_state. destruct (clear_all_pressed inp); [|exact Hg].
    destruct Hg as (_ & _ & Gh). split; [|split].
    - intros k v t0. simpl. rewrite lookup_empty. discriminate.
    - intros q n v. simpl. rewrite lookup_empty. discriminate.
    - exact Gh. }
  assert (H1 : all_genuine
                 (state_of ((if run_pressed inp then run_handler now inp else ret tt)
                              (state_of (clear_all_button inp s))))).
  { destruct (run_pressed inp); [apply run_handler_genuine, H0 | exact H0]. }
  destruct (clear_streamlit_pressed inp); [|exact H1].
  destruct H1 as (_ & Gi & Gh). split; [|split].
  - intros k v t0. simpl. rewrite lookup_empty. discriminate.
  - exact Gi.
  - exact Gh.
Qed.

Lemma reachable_genuine s : reachable s -> all_genuine s.
Proof.
  induction 1 as [|now inp s _ IH].
  - split; [|split].
    + intros k v t0. simpl. rewrite lookup_empty. discriminate.
    + intros q n v. simpl. rewrite lookup_empty. discriminate.
    + intros q v [].
  - apply app_script_genuine, IH.
Qed.

(** X14. Between script runs, every summary held by either tier under a
    key, every summary in the history, and every summary the cached entry
    point returns is the answer the LLM gave on the concatenation of the
    articles the Fetcher returned for that very query and article count:
    nothing is stored under another key, and no error text is stored. *)
Theorem stored_summaries_are_genuine s :
  reachable s ->
  (forall q n v, inner s !! (q, n) = Some v -> genuine s q n v)
  /\ (forall q n v t0, outer s !! (q, n) = Some (v, t0) -> genuine s q n v)
  /\ (forall q v, In (q, v) (history_list s) -> exists n, genuine s q n v)
  /\ (forall now q n v,
        result_of (get_summary_cached_ui now q n s) = Ok v ->
        genuine (state_of (get_summary_cached_ui now q n s)) q n v).
Proof.
  intros Hr. pose proof (reachable_genuine s Hr) as Hg.
  pose proof Hg as (Hc & Gi & Gh).
  split; [exact Gi|]. split; [|split; [exact Gh|]].
  - intros q n v t0 Ho. apply Gi. exact (Hc _ _ _ Ho).
  - intros now q n. apply cached_ui_genuine, Hg.
Qed.

(** *** A run that computes *)

Lemma cached_ui_success now q n s articles v :
  key_status now (q, n) s = UNSET ->
  news_search (length (calls s)) q n = inr articles ->
  llm_summarize (S (length (calls s))) (concat_text articles) = inr v ->
  get_summary_cached_ui now q n s =
  (Ok v,
   set_outer (<[(q, n) := (v, now)]> (outer s))
     (set_inner (<[(q, n) := v]> (inner s))
        (log_call (LLMCall (concat_text articles)) (log_call (FetchCall q n) s))),
   []).
Proof.
  intros Hu Hf Hl. destruct (key_status_UNSET _ _ _ Hu) as (Ho & Hi).
  rewrite cached_ui_eq, Ho, cached_module_eq, Hi, get_summary_eq, Hf. simpl.
  rewrite Hl. reflexivity.
Qed.

(** X15. A run on a key that is in neither tier, when both services answer
    and the summary is not empty: the Fetcher is called twice (for the page,
    then for the summary) and the LLM once, on the articles of the second
    fetch; the summary is stored under the key in both tiers, the outer
    entry stamped with the instant of the run; it is shown with its download
    button and put on top of the history. *)
Theorem run_computes_and_stores now inp s a l articles2 c v :
  truthy (strip (query inp)) = true ->
  news_search (length (calls s)) (query inp) (max_articles inp) = inr (a :: l) ->
  key_status now (query inp, max_articles inp) s = UNSET ->
  news_search (S (length (calls s))) (query inp) (max_articles inp) = inr articles2 ->
  llm_summarize (S (S (length (calls s)))) (concat_text articles2) = inr (c :: v) ->
  let out := run_handler now inp s in
  result_of out = Ok tt
  /\ calls (state_of out)
     = calls s ++ [FetchCall (query inp) (max_articles inp);
                   FetchCall (query inp) (max_articles inp);
                   LLMCall (concat_text articles2)]
  /\ outer (state_of out)
     = <[(query inp, max_articles inp) := (c :: v, now)]> (outer s)
  /\ inner (state_of out) = <[(query inp, max_articles inp) := c :: v]> (inner s)
  /\ history (state_of out) = Some ((query inp, c :: v) :: history_list s)
  /\ exists page,
       widgets_of out =
       page ++ [StSpinner (lit "Summarizing (calls LLM)...");
                StMarkdown (lit "### Summary");
                StWrite (c :: v);
                StDownloadButton (lit "Download summary (txt)") (c :: v)
                  (lit "summary.txt")].
Proof.
  intros Hq Hf Hu Hf2 Hl out. subst out.
  rewrite (run_handler_fetched now inp s a l Hq Hf).
  set (s1 := log_call (FetchCall (query inp) (max_articles inp)) s).
  assert (Hu1 : key_status now (query inp, max_articles inp) s1 = UNSET) by exact Hu.
  assert (Hlen : length (calls s1) = S (length (calls s)))
    by apply length_calls_log.
  rewrite summarize_step_eq. cbv zeta.
  rewrite (cached_ui_success now _ _ s1 articles2 (c :: v) Hu1)
    by (rewrite Hlen; assumption).
  unfold result_of, state_of, widgets_of. cbn [fst snd].
  split; [reflexivity|]. split; [simpl; rewrite <- !app_assoc; reflexivity|].
  split; [reflexivity|]. split; [reflexivity|]. split; [reflexivity|].
  exists (StSpinner (lit "Fetching articles from NewsAPI...")
          :: snd (show_articles (a :: l) s1)
          ++ snd (token_estimate_step (concat_text (a :: l)) s1)).
  rewrite <- app_comm_cons, <- app_assoc. reflexivity.
Qed.

(** X16. The estimate on the page is that of the text of the page-level
    fetch, while the text that goes to the LLM is that of the fetch made
    for the summary: when the key is in neither tier and the second fetch
    returns articles, the page shows the estimate of the first text and the
    one LLM call of the run carries the second. *)
Theorem estimate_is_for_page_level_text now inp s a l articles2 tokens_est :
  truthy (strip (query inp)) = true ->
  news_search (length (calls s)) (query inp) (max_articles inp) = inr (a :: l) ->
  key_status now (query inp, max_articles inp) s = UNSET ->
  news_search (S (length (calls s))) (query inp) (max_articles inp) = inr articles2 ->
  estimate_tokens (concat_text (a :: l)) = Ok tokens_est ->
  let out := run_handler now inp s in
  In (StInfo (lit "Estimated tokens for input (approx): " ++ str_of_Z tokens_est))
     (widgets_of out)
  /\ calls (state_of out)
     = calls s ++ [FetchCall (query inp) (max_articles inp);
                   FetchCall (query inp) (max_articles inp);
                   LLMCall (concat_text articles2)].
Proof.
  intros Hq Hf Hu Hf2 He out. subst out. split.
  - rewrite (run_handler_fetched now inp s a l Hq Hf).
    unfold widgets_of at 1. cbn [snd].
    right. apply in_or_app. right. apply in_or_app. left.
    rewrite token_estimate_step_eq, He. left. reflexivity.
  - rewrite run_handler_new_calls.
    assert (Hb : forallb isspace (query inp) = false).
    { destruct (forallb isspace (query inp)) eqn:E; [|reflexivity].
      rewrite truthy_strip, E in Hq. discriminate. }
    rewrite Hb, Hf, Hu, Hf2. reflexivity.
Qed.

(** *** No warning but the cost warning *)

Lemma show_articles_no_warning articles s m :
  ~ In (StWarning m) (widgets_of (show_articles articles s)).
Proof.
  unfold show_articles, bind. simpl.
  rewrite (for_each_emits _ show_article (fun a => [StWrite (article_line a)]))
    by apply show_article_eq.
  rewrite concat_singletons. simpl. intros [H|H]; [discriminate|].
  apply in_map_iff in H as (a & H & _). discriminate.
Qed.

Lemma summarize_step_no_warning now inp s m :
  ~ In (StWarning m) (widgets_of (summarize_step now inp s)).
Proof.
  rewrite summarize_step_eq. cbv zeta.
  destruct (result_of (get_summary_cached_ui _ _ _ _)) as [[|c v]|e]; simpl;
    intros H; repeat (destruct H as [H|H]; [discriminate|]); exact H.
Qed.

End App.

(** ** Properties that compare two estimators, and examples *)

(** C7. Once the page-level fetch has returned articles, the estimate step
    returns and leaves the state alone whatever the estimator does; the
    cost warning is on the page of the run exactly when the estimate exists
    and exceeds 8000 (the page being the article list, then the estimate
    and that warning, then the summary part); and in every case the
    summarisation step runs next: the state after the run is the state
    after that step, whose upstream calls are those of the cached entry
    point, and it is the same for any other estimator. *)
Theorem token_estimate_is_advisory news llm est est' now inp s a articles :
  truthy (strip (query inp)) = true ->
  news (length (calls s)) (query inp) (max_articles inp) = inr (a :: articles) ->
  let text := concat_text (a :: articles) in
  let s1 := log_call (FetchCall (query inp) (max_articles inp)) s in
  let out := run_handler news llm est now inp s in
  (In (StWarning cost_warning) (widgets_of (token_estimate_step est text s1))
   <-> exists t, est text = Ok t /\ 8000 < t)
  /\ result_of (token_estimate_step est text s1) = Ok tt
  /\ state_of (token_estimate_step est text s1) = s1
  /\ result_of out = Ok tt
  /\ state_of out = state_of (summarize_step news llm now inp s1)
  /\ calls (state_of out)
     = calls (state_of (get_summary_cached_ui news llm now (query inp)
                          (max_articles inp) s1))
  /\ (exists page, widgets_of out = page ++ widgets_of (summarize_step news llm now inp s1))
  /\ state_of out = state_of (run_handler news llm est' now inp s)
  /\ result_of out = result_of (run_handler news llm est' now inp s)
  /\ widgets_of out
     = StSpinner (lit "Fetching articles from NewsAPI...")
       :: widgets_of (show_articles (a :: articles) s1)
       ++ match est text with
          | Ok tokens_est =>
              StInfo (lit "Estimated tokens for input (approx): "
                      ++ str_of_Z tokens_est)
              :: (if 8000 <? tokens_est then [StWarning cost_warning] else [])
          | Raise _ => []
          end
       ++ widgets_of (summarize_step news llm now inp s1)
  /\ (In (StWarning cost_warning) (widgets_of out)
      <-> exists t, est text = Ok t /\ 8000 < t).
Proof.
  intros Hq Hf text s1 out.
  assert (Eout : out =
                 (result_of (summarize_step news llm now inp s1),
                  state_of (summarize_step news llm now inp s1),
                  StSpinner (lit "Fetching articles from NewsAPI...")
                  :: widgets_of (show_articles (a :: articles) s1)
                  ++ widgets_of (token_estimate_step est text s1)
                  ++ widgets_of (summarize_step news llm now inp s1)))
    by exact (run_handler_fetched news llm est now inp s a articles Hq Hf).
  assert (Eout' : run_handler news llm est' now inp s =
                  (result_of (summarize_step news llm now inp s1),
                   state_of (summarize_step news llm now inp s1),
                   StSpinner (lit "Fetching articles from NewsAPI...")
                   :: widgets_of (show_articles (a :: articles) s1)
                   ++ widgets_of (token_estimate_step est' text s1)
                   ++ widgets_of (summarize_step news llm now inp s1)))
    by exact (run_handler_fetched news llm est' now inp s a articles Hq Hf).
  assert (Hres : result_of (summarize_step news llm now inp s1) = Ok tt).
  { rewrite summarize_step_eq. simpl.
    destruct (result_of (get_summary_cached_ui _ _ _ _ _ _)); reflexivity. }
  assert (Hcalls : calls (state_of (summarize_step news llm now inp s1))
                   = calls (state_of (get_summary_cached_ui news llm now (query inp)
                                        (max_articles inp) s1))).
  { rewrite summarize_step_eq. simpl.
    destruct (result_of (get_summary_cached_ui _ _ _ _ _ _)) as [v|e]; [|reflexivity].
    destruct v; reflexivity. }
  pose proof (token_estimate_step_eq est text s1) as Hest.
  assert (Hw1 : In (StWarning cost_warning)
                   (widgets_of (token_estimate_step est text s1))
                <-> exists t, est text = Ok t /\ 8000 < t).
  { rewrite Hest. simpl. split.
    - destruct (est text) as [t|e]; simpl.
      + intros [H|H]; [discriminate|].
        destruct (Z.ltb_spec 8000 t); [eauto|destruct H].
      + intros [].
    - intros (t & -> & Ht). simpl. right.
      destruct (Z.ltb_spec 8000 t); [left; reflexivity|lia]. }
  split; [exact Hw1|].
  split; [rewrite Hest; reflexivity|].
  split; [rewrite Hest; reflexivity|].
  rewrite Eout'. clearbody out. subst out.
  cbn [result_of state_of widgets_of fst snd].
  split; [exact Hres|]. split; [reflexivity|]. split; [exact Hcalls|].
  split.
  { exists (StSpinner (lit "Fetching articles from NewsAPI...")
            :: widgets_of (show_articles (a :: articles) s1)
            ++ widgets_of (token_estimate_step est text s1)).
    rewrite <- app_comm_cons, <- app_assoc. reflexivity. }
  split; [reflexivity|]. split; [reflexivity|].
  split; [rewrite Hest; reflexivity|].
  split.
  - intros [H|H]; [discriminate|].
    apply in_app_or in H as [H|H];
      [exfalso; eapply show_articles_no_warning; exact H|].
    apply in_app_or in H as [H|H]; [apply Hw1, H|].
    exfalso. eapply summarize_step_no_warning. exact H.
  - intros H. right. apply in_or_app. right. apply in_or_app. left.
    apply Hw1, H.
Qed.

(** C4. The text handed to summarisation joins title and description of
    each article with " — " (for every article, either one rendered as the
    empty string when absent, whatever the other one is), and separates
    consecutive articles by a blank line; on
    [{title:"A", description:"B"}, {title:"C", description:None}] it is
    "A — B\n\nC — ". *)
Theorem concat_text_format :
  concat_text [] = []
  /\ (forall a, concat_text [a] = article_text a)
  /\ (forall a b rest,
        concat_text (a :: b :: rest)
        = article_text a ++ [10%N; 10%N] ++ concat_text (b :: rest))
  /\ (forall t d s u,
        article_text {| title := Some t; description := Some d;
                        source := s; url := u |}
        = (if truthy t then t else []) ++ [32%N; 8212%N; 32%N]
          ++ (if truthy d then d else []))
  /\ (forall s u,
        article_text {| title := None; description := None;
                        source := s; url := u |} = [32%N; 8212%N; 32%N])
  /\ (forall s1 u1 s2 u2,
        concat_text
          [ {| title := Some (lit "A"); description := Some (lit "B");
               source := s1; url := u1 |};
            {| title := Some (lit "C"); description := None;
               source := s2; url := u2 |} ]
        = lit "A " ++ emdash ++ lit " B" ++ newline ++ newline
          ++ lit "C " ++ emdash ++ lit " ")
  /\ (forall a,
        article_text a
        = match title a with Some t => t | None => [] end
          ++ [32%N; 8212%N; 32%N]
          ++ match description a with Some d => d | None => [] end)
  /\ (forall articles,
        concat_text articles
        = join [10%N; 10%N]
            (map (fun a =>
                    match title a with Some t => t | None => [] end
                    ++ [32%N; 8212%N; 32%N]
                    ++ match description a with Some d => d | None => [] end)
               articles))
  /\ (forall d s u,
        concat_text [ {| title := None; description := Some d;
                         source := s; url := u |} ]
        = [32%N; 8212%N; 32%N] ++ d)
  /\ (forall t s u,
        concat_text [ {| title := Some t; description := None;
                         source := s; url := u |} ]
        = t ++ [32%N; 8212%N; 32%N]).
Proof.
  assert (Ha : forall a,
             article_text a
             = match title a with Some t => t | None => [] end
               ++ [32%N; 8212%N; 32%N]
               ++ match description a with Some d => d | None => [] end).
  { intros a. unfold article_text.
    destruct (title a) as [[|c t]|]; destruct (description a) as [[|c' d]|];
      reflexivity. }
  split; [reflexivity|]. split; [reflexivity|]. split; [reflexivity|].
  split; [reflexivity|]. split; [reflexivity|]. split; [reflexivity|].
  split; [exact Ha|]. split; [|split].
  - intros articles. unfold concat_text. f_equal.
    apply map_ext. exact Ha.
  - intros d s u. change (concat_text [?a]) with (article_text a).
    unfold concat_text. simpl map. simpl join. rewrite Ha. reflexivity.
  - intros t s u. unfold concat_text. simpl map. simpl join. rewrite Ha.
    simpl. reflexivity.
Qed.

(** ** The claims at concrete inputs *)

(** The specification's order of the stages, with the outer tier written
    first, is not the program's: on a first successful call for
    ("Acme Corp", 5) the second stage is "inner only". *)
Lemma lifecycle_not_as_claimed :
  observed_lifecycle one_article_news answering_llm 0 (lit "Acme Corp") 5 init_state
  <> claimed_lifecycle.
Proof.
  rewrite (observed_lifecycle_first_call one_article_news answering_llm 0
             (lit "Acme Corp") 5 init_state (lit "Acme had a strong quarter."))
    by reflexivity.
  discriminate.
Qed.

(** The lookup of the outer tier is no function of the key alone.  The
    entry stored at instant 0 for ("Acme Corp", 5) is served at instant 0
    and no longer at instant 86400, and the state a call leaves differs
    with the instant; the same key at the same instant is not served on a
    fresh state and is served once it has been computed. *)
Lemma outer_lookup_reads_the_clock :
  let k := (lit "Acme Corp", 5) in
  let s1 := state_of (get_summary_cached_ui one_article_news answering_llm 0
                        (lit "Acme Corp") 5 init_state) in
  outer_lookup ui_ttl 0 k (outer s1) = Some (lit "Acme had a strong quarter.")
  /\ outer_lookup ui_ttl 86400 k (outer s1) = None
  /\ outer_lookup ui_ttl 0 k (outer s1) <> outer_lookup ui_ttl 86400 k (outer s1)
  /\ outer_lookup ui_ttl 0 k (outer init_state) <> outer_lookup ui_ttl 0 k (outer s1)
  /\ state_of (get_summary_cached_ui one_article_news answering_llm 1
                 (lit "Acme Corp") 5 s1)
     <> state_of (get_summary_cached_ui one_article_news answering_llm 86400
                    (lit "Acme Corp") 5 s1).
Proof.
  cbv zeta. split; [reflexivity|]. split; [reflexivity|].
  split; [intros E; vm_compute in E; discriminate E|].
  split; [intros E; vm_compute in E; discriminate E|].
  intros E.
  apply (f_equal (fun s => outer s !! (lit "Acme Corp", 5))) in E.
  vm_compute in E. discriminate E.
Qed.

Lemma key_lifecycle_witness :
  key_status 0 (lit "Acme Corp", 5) init_state = UNSET
  /\ observed_lifecycle one_article_news answering_llm 0 (lit "Acme Corp") 5 init_state
     = [UNSET; CACHED_inner_only; CACHED_outer_inner; CACHED_inner_only; UNSET].
Proof.
  split; [reflexivity|].
  pose proof (key_lifecycle one_article_news answering_llm quarter_length 0
                (lit "Acme Corp") 5 init_state (lit "Acme had a strong quarter.")
                eq_refl eq_refl) as H.
  cbv zeta in H. exact (proj2 (proj2 (proj2 (proj2 (proj2 (proj2 (proj2 H))))))).
Defined.

Lemma cached_ui_idempotent_witness :
  result_of (get_summary_cached_ui one_article_news answering_llm 0
               (lit "Acme Corp") 5 init_state)
  = Ok (lit "Acme had a strong quarter.")
  /\ result_of
       (get_summary_cached_ui one_article_news answering_llm 3600 (lit "Acme Corp") 5
          (state_of (get_summary_cached_ui one_article_news answering_llm 0
                       (lit "Acme Corp") 5 init_state)))
     = Ok (lit "Acme had a strong quarter.").
Proof.
  split; [reflexivity|].
  pose proof (cached_ui_idempotent one_article_news answering_llm 0 3600
                (lit "Acme Corp") 5 init_state (lit "Acme had a strong quarter.")
                eq_refl) as H.
  cbv zeta in H.
  assert (Hlive : forall v0 t0,
             outer (state_of (get_summary_cached_ui one_article_news answering_llm 0
                                (lit "Acme Corp") 5 init_state))
               !! (lit "Acme Corp", 5) = Some (v0, t0) ->
             3600 < t0 + ui_ttl).
  { intros v0 t0 E. vm_compute in E. injection E as _ <-. reflexivity. }
  rewrite (proj1 (H Hlive)). reflexivity.
Defined.

Lemma cache_key_exact_witness :
  (lit "Acme Corp", 5) <> (lit "acme corp", 5)
  /\ reachable one_article_news answering_llm quarter_length init_state
  /\ inner (state_of (get_summary_cached_ui one_article_news answering_llm 0
                        (lit "Acme Corp") 5 init_state))
       !! (lit "acme corp", 5) = None
  /\ exists rest,
       calls (state_of
                (get_summary_cached_ui one_article_news answering_llm 60
                   (lit "acme corp") 5
                   (state_of (get_summary_cached_ui one_article_news answering_llm 0
                                (lit "Acme Corp") 5 init_state))))
       = calls (state_of (get_summary_cached_ui one_article_news answering_llm 0
                            (lit "Acme Corp") 5 init_state))
         ++ FetchCall (lit "acme corp") 5 :: rest.
Proof.
  assert (Hne : (lit "Acme Corp", 5) <> (lit "acme corp", 5)).
  { intros E. vm_compute in E. discriminate E. }
  pose proof (cache_key_exact one_article_news answering_llm quarter_length 0 60
                (lit "Acme Corp") 5 (lit "acme corp") 5 init_state Hne
                (reachable_init _ _ _)) as H.
  cbv zeta in H. destruct H as (_ & Hi & _ & Hmiss & _).
  split; [exact Hne|]. split; [apply reachable_init|].
  split; [rewrite Hi; reflexivity|].
  apply Hmiss. reflexivity.
Defined.

Lemma run_fetch_failure_or_empty_witness :
  truthy (strip (query acme_inputs)) = true
  /\ no_article_news 0%nat (lit "Acme Corp") 5 = inr []
  /\ widgets_of (run_handler no_article_news answering_llm quarter_length 0
                   acme_inputs init_state)
     = [StSpinner (lit "Fetching articles from NewsAPI...");
        StInfo (lit "No articles found for this query.")]
  /\ state_of (run_handler no_article_news answering_llm quarter_length 0
                 acme_inputs init_state)
     = log_call (FetchCall (lit "Acme Corp") 5) init_state.
Proof.
  pose proof (run_fetch_failure_or_empty no_article_news answering_llm quarter_length
                0 acme_inputs init_state eq_refl eq_refl) as H.
  cbv zeta in H. destruct H as (_ & _ & _ & _ & _ & Hw).
  split; [reflexivity|]. split; [reflexivity|].
  split; [exact Hw | reflexivity].
Defined.


Lemma token_estimate_is_advisory_witness :
  truthy (strip (query acme_inputs)) = true
  /\ one_article_news 0%nat (lit "Acme Corp") 5 = inr [acme_article]
  /\ state_of (run_handler one_article_news answering_llm quarter_length 0
                 acme_inputs init_state)
     = state_of (run_handler one_article_news answering_llm raising_estimate 0
                   acme_inputs init_state)
  /\ calls (state_of (run_handler one_article_news answering_llm quarter_length 0
                        acme_inputs init_state))
     = [FetchCall (lit "Acme Corp") 5; FetchCall (lit "Acme Corp") 5;
        LLMCall (concat_text [acme_article])].
Proof.
  pose proof (token_estimate_is_advisory one_article_news answering_llm
                quarter_length raising_estimate 0 acme_inputs init_state
                acme_article [] eq_refl eq_refl) as H.
  cbv zeta in H. destruct H as (_ & _ & _ & _ & _ & Hc & _ & Hs & _).
  split; [reflexivity|]. split; [reflexivity|].
  split; [exact Hs|]. rewrite Hc. reflexivity.
Defined.

(** ** Runs on the sample services *)

Example strip_query : strip (lit "  Acme Corp ") = lit "Acme Corp".
Proof. reflexivity. Qed.

Example blank_query_is_falsy : truthy (strip ([32; 9; 160; 8195; 10]%N)) = false.
Proof. reflexivity. Qed.

Example article_src_samples :
  article_src acme_article = lit "Newswire"
  /\ article_src {| title := None; description := None; source := None; url := None |}
     = lit "None"
  /\ article_src {| title := None; description := None; source := Some ∅; url := None |}
     = lit "{}"
  /\ article_src {| title := None; description := None;
                    source := Some {[ lit "id" := None ]}; url := None |}
     = lit "None".
Proof. repeat split; reflexivity. Qed.

(** A blank query: a warning, nothing else. *)
Example run_blank_query :
  run_handler one_article_news answering_llm quarter_length 0
    {| max_articles := 5; date_from := None; date_to := None;
       cache_ttl_minutes := 60; clear_all_pressed := false;
       query := lit "   "; run_pressed := true;
       clear_streamlit_pressed := false |} init_state
  = (Ok tt, init_state, [StWarning (lit "Please enter a query.")]).
Proof. reflexivity. Qed.

(** "Acme Corp", 5 articles asked, one found, the LLM answers: the summary
    is in both tiers and on top of the history; a second run ten seconds
    later makes the page-level fetch and is served the summary without any
    further upstream call. *)
Example run_then_repeat :
  let s1 := state_of (run_handler one_article_news answering_llm quarter_length 0
                        acme_inputs init_state) in
  let s2 := state_of (run_handler one_article_news answering_llm quarter_length 10
                        acme_inputs s1) in
  key_status 0 (lit "Acme Corp", 5) s1 = CACHED_outer_inner
  /\ history s1 = Some [(lit "Acme Corp", lit "Acme had a strong quarter.")]
  /\ calls s1 = [FetchCall (lit "Acme Corp") 5; FetchCall (lit "Acme Corp") 5;
                 LLMCall (concat_text [acme_article])]
  /\ calls s2 = calls s1 ++ [FetchCall (lit "Acme Corp") 5]
  /\ history s2 = Some [(lit "Acme Corp", lit "Acme had a strong quarter.");
                        (lit "Acme Corp", lit "Acme had a strong quarter.")].
Proof. vm_compute. repeat split; reflexivity. Qed.

(** A fetch that fails: the error, the log entry, and "no articles". *)
Example run_fetch_failure :
  run_handler failing_news answering_llm quarter_length 0 acme_inputs init_state
  = (Ok tt, log_call (FetchCall (lit "Acme Corp") 5) init_state,
     [StSpinner (lit "Fetching articles from NewsAPI...");
      StError (lit "Failed to fetch articles: quota exhausted");
      LogException (lit "NewsAPI fetch failed");
      StInfo (lit "No articles found for this query.")]).
Proof. reflexivity. Qed.

(** "Clear Streamlit cache only" leaves the inner tier: the key is then
    "inner only", and the next call makes no upstream call. *)
Example clear_streamlit_only :
  let s1 := state_of (get_summary_cached_ui one_article_news answering_llm 0
                        (lit "Acme Corp") 5 init_state) in
  let s2 := state_of (st_cache_data_clear s1) in
  key_status 1 (lit "Acme Corp", 5) s2 = CACHED_inner_only
  /\ calls (state_of (get_summary_cached_ui one_article_news answering_llm 1
                        (lit "Acme Corp") 5 s2)) = calls s1.
Proof. vm_compute. split; reflexivity. Qed.

(** ** Further properties that compare two services, and their examples *)

Lemma cached_ui_ext news news' llm now q n s :
  news (length (calls s)) q n = news' (length (calls s)) q n ->
  get_summary_cached_ui news llm now q n s = get_summary_cached_ui news' llm now q n s.
Proof.
  intros H. rewrite !cached_ui_eq, !cached_module_eq, !get_summary_eq, H.
  reflexivity.
Qed.

Lemma summarize_step_ext news news' llm now inp s :
  news (length (calls s)) (query inp) (max_articles inp)
    = news' (length (calls s)) (query inp) (max_articles inp) ->
  summarize_step news llm now inp s = summarize_step news' llm now inp s.
Proof.
  intros H. rewrite !summarize_step_eq. cbv zeta.
  rewrite (cached_ui_ext news news' llm now _ _ s H). reflexivity.
Qed.

(** X12. The summarisation never sees the articles of the page-level fetch:
    it is called with the query and the article count only.  For two news
    services that both return articles to the page-level fetch, whichever
    they are, and then answer the next call alike, a run ends in the same
    state and shows the same summary part. *)
Theorem summary_ignores_page_articles news news' llm est now inp s a l a' l' :
  truthy (strip (query inp)) = true ->
  news (length (calls s)) (query inp) (max_articles inp) = inr (a :: l) ->
  news' (length (calls s)) (query inp) (max_articles inp) = inr (a' :: l') ->
  news (S (length (calls s))) (query inp) (max_articles inp)
    = news' (S (length (calls s))) (query inp) (max_articles inp) ->
  let s1 := log_call (FetchCall (query inp) (max_articles inp)) s in
  state_of (run_handler news llm est now inp s)
    = state_of (run_handler news' llm est now inp s)
  /\ exists page page',
       widgets_of (run_handler news llm est now inp s)
         = page ++ widgets_of (summarize_step news llm now inp s1)
       /\ widgets_of (run_handler news' llm est now inp s)
         = page' ++ widgets_of (summarize_step news llm now inp s1).
Proof.
  intros Hq Hf Hf' Hnext s1.
  rewrite (run_handler_fetched news llm est now inp s a l Hq Hf).
  rewrite (run_handler_fetched news' llm est now inp s a' l' Hq Hf').
  fold s1.
  assert (E : summarize_step news llm now inp s1 = summarize_step news' llm now inp s1).
  { apply summarize_step_ext. subst s1. rewrite length_calls_log. exact Hnext. }
  rewrite <- E. unfold state_of, widgets_of. cbn [fst snd].
  split; [reflexivity|].
  exists (StSpinner (lit "Fetching articles from NewsAPI...")
          :: snd (show_articles (a :: l) s1)
          ++ snd (token_estimate_step est (concat_text (a :: l)) s1)).
  exists (StSpinner (lit "Fetching articles from NewsAPI...")
          :: snd (show_articles (a' :: l') s1)
          ++ snd (token_estimate_step est (concat_text (a' :: l')) s1)).
  split; rewrite <- app_comm_cons, <- app_assoc; reflexivity.
Qed.

Lemma list_sum_cons a l : list_sum (a :: l) = (a + list_sum l)%nat.
Proof. reflexivity. Qed.

Lemma length_join sep xs :
  length (join sep xs)
  = (list_sum (map (@length N) xs) + length sep * (length xs - 1))%nat.
Proof.
  induction xs as [|x [|y rest] IH].
  - simpl. lia.
  - simpl. lia.
  - change (join sep (x :: y :: rest)) with (x ++ sep ++ join sep (y :: rest)).
    rewrite !length_app, IH. cbn [map list_sum length].
    replace (S (S (length rest)) - 1)%nat with (S (S (length rest) - 1))%nat by lia.
    rewrite Nat.mul_succ_r, !list_sum_cons. lia.
Qed.

(** X13. The text handed to the estimate has the lengths of the titles and
    descriptions (an absent one counting for nothing), plus 3 for each
    article and 2 between consecutive articles.  It is therefore empty for
    no article only: articles without any text still give a text. *)
Theorem concat_text_length articles :
  length (concat_text articles)
  = (list_sum (map (fun a => length (py_or (title a) [])
                              + length (py_or (description a) [])) articles)
     + 3 * length articles + 2 * (length articles - 1))%nat
  /\ (5 * length articles - 2 <= length (concat_text articles))%nat
  /\ (concat_text articles = [] <-> articles = []).
Proof.
  assert (E : length (concat_text articles)
              = (list_sum (map (fun a => length (py_or (title a) [])
                                         + length (py_or (description a) []))
                             articles)
                 + 3 * length articles + 2 * (length articles - 1))%nat).
  { unfold concat_text. rewrite length_join, length_map, map_map.
    change (length (newline ++ newline)) with 2%nat.
    assert (Hs : list_sum (map (fun a => length (article_text a)) articles)
                 = (list_sum (map (fun a => length (py_or (title a) [])
                                            + length (py_or (description a) []))
                                articles)
                    + 3 * length articles)%nat).
    { induction articles as [|a rest IH]; [reflexivity|].
      cbn [map length]. rewrite !list_sum_cons, IH. unfold article_text.
      rewrite !length_app.
      change (length (lit " ")) with 1%nat. change (length emdash) with 1%nat.
      lia. }
    rewrite Hs. lia. }
  split; [exact E|]. split; [lia|]. split.
  - intros H. destruct articles as [|a rest]; [reflexivity|].
    rewrite H in E. cbn [length] in E. lia.
  - intros ->. reflexivity.
Qed.

(** ** The further properties at concrete inputs *)

Lemma cached_summary_is_frozen_witness :
  let s := state_of (app_script one_article_news answering_llm quarter_length 0
                       acme_inputs init_state) in
  let s' := state_of (app_script one_article_news answering_llm quarter_length 100000
                        dev_inputs s) in
  inner s !! (lit "Acme Corp", 5) = Some (lit "Acme had a strong quarter.")
  /\ result_of (get_summary_cached_ui one_article_news answering_llm 200000
                  (lit "Acme Corp") 5 s')
     = Ok (lit "Acme had a strong quarter.").
Proof.
  cbv zeta. split; [reflexivity|].
  apply (cached_summary_is_frozen one_article_news answering_llm quarter_length
           (state_of (app_script one_article_news answering_llm quarter_length 0
                        acme_inputs init_state))).
  - apply reachable_run, reachable_init.
  - reflexivity.
  - apply runs_more; [apply runs_none | reflexivity].
Defined.

Lemma empty_summary_is_cached_not_shown_witness :
  result_of (get_summary_cached_ui one_article_news silent_llm 0
               (query acme_inputs) (max_articles acme_inputs) init_state) = Ok []
  /\ widgets_of (summarize_step one_article_news silent_llm 0 acme_inputs init_state)
     = [StSpinner (lit "Summarizing (calls LLM)...")].
Proof.
  split; [reflexivity|].
  pose proof (empty_summary_is_cached_not_shown one_article_news silent_llm 0
                acme_inputs init_state eq_refl) as H.
  cbv zeta in H. rewrite (proj1 H). reflexivity.
Defined.

Lemma run_on_cached_key_witness :
  let s := state_of (get_summary_cached_ui one_article_news answering_llm 0
                       (lit "Acme Corp") 5 init_state) in
  outer_lookup ui_ttl 10 (lit "Acme Corp", 5) (outer s)
  = Some (lit "Acme had a strong quarter.")
  /\ calls (state_of (run_handler changing_news failing_llm raising_estimate 10
                        acme_inputs s))
     = calls s ++ [FetchCall (lit "Acme Corp") 5].
Proof.
  cbv zeta. split; [reflexivity|].
  pose proof (run_on_cached_key changing_news failing_llm raising_estimate 10
                acme_inputs
                (state_of (get_summary_cached_ui one_article_news answering_llm 0
                             (lit "Acme Corp") 5 init_state))
                acme_article [] 65%N (lit "cme had a strong quarter.")
                eq_refl eq_refl eq_refl) as H.
  cbv zeta in H. exact (proj1 (proj2 H)).
Defined.

Lemma clear_streamlit_only_keeps_inner_witness :
  let s := state_of (get_summary_cached_ui one_article_news answering_llm 0
                       (lit "Acme Corp") 5 init_state) in
  clear_streamlit_pressed dev_inputs = true
  /\ key_status 1 (lit "Acme Corp", 5) (state_of (developer_tools dev_inputs s))
     = CACHED_inner_only.
Proof.
  cbv zeta. split; [reflexivity|].
  pose proof (clear_streamlit_only_keeps_inner failing_news failing_llm 1 dev_inputs
                (state_of (get_summary_cached_ui one_article_news answering_llm 0
                             (lit "Acme Corp") 5 init_state))
                (lit "Acme Corp") 5 (lit "Acme had a strong quarter.")
                eq_refl eq_refl) as H.
  cbv zeta in H. exact (proj1 (proj2 H)).
Defined.

Lemma fetch_failure_inside_summarization_witness :
  flaky_news 1%nat (lit "Acme Corp") 5 = inl (lit "quota exhausted")
  /\ calls (state_of (run_handler flaky_news answering_llm quarter_length 0
                        acme_inputs init_state))
     = [FetchCall (lit "Acme Corp") 5; FetchCall (lit "Acme Corp") 5]
  /\ In (StError (lit "Error during summarization: " ++ lit "quota exhausted"))
        (widgets_of (run_handler flaky_news answering_llm quarter_length 0
                       acme_inputs init_state)).
Proof.
  split; [reflexivity|].
  pose proof (fetch_failure_inside_summarization flaky_news answering_llm
                quarter_length 0 acme_inputs init_state acme_article []
                (lit "quota exhausted") eq_refl eq_refl eq_refl eq_refl) as H.
  cbv zeta in H. destruct H as (_ & Hc & _ & _ & _ & page & Hw).
  split; [exact Hc|].
  rewrite Hw. apply in_or_app. right. right. left. reflexivity.
Defined.

Lemma summary_ignores_page_articles_witness :
  one_article_news 0%nat (lit "Acme Corp") 5 <> changing_news 0%nat (lit "Acme Corp") 5
  /\ state_of (run_handler one_article_news answering_llm quarter_length 0
                 acme_inputs init_state)
     = state_of (run_handler changing_news answering_llm quarter_length 0
                   acme_inputs init_state).
Proof.
  split; [discriminate|].
  pose proof (summary_ignores_page_articles one_article_news changing_news
                answering_llm quarter_length 0 acme_inputs init_state
                acme_article []
                {| title := None; description := None; source := None; url := None |}
                [] eq_refl eq_refl eq_refl eq_refl) as H.
  cbv zeta in H. exact (proj1 H).
Defined.

Lemma stored_summaries_are_genuine_witness :
  let s := state_of (app_script one_article_news answering_llm quarter_length 0
                       acme_inputs init_state) in
  inner s !! (lit "Acme Corp", 5) = Some (lit "Acme had a strong quarter.")
  /\ genuine one_article_news answering_llm s (lit "Acme Corp") 5
       (lit "Acme had a strong quarter.").
Proof.
  cbv zeta. split; [reflexivity|].
  apply (stored_summaries_are_genuine one_article_news answering_llm quarter_length
           (state_of (app_script one_article_news answering_llm quarter_length 0
                        acme_inputs init_state))).
  - apply reachable_run, reachable_init.
  - reflexivity.
Defined.

Lemma run_computes_and_stores_witness :
  key_status 0 (lit "Acme Corp", 5) init_state = UNSET
  /\ inner (state_of (run_handler one_article_news answering_llm quarter_length 0
                        acme_inputs init_state))
     = {[ (lit "Acme Corp", 5) := lit "Acme had a strong quarter." ]}
  /\ history (state_of (run_handler one_article_news answering_llm quarter_length 0
                          acme_inputs init_state))
     = Some [(lit "Acme Corp", lit "Acme had a strong quarter.")].
Proof.
  split; [reflexivity|].
  pose proof (run_computes_and_stores one_article_news answering_llm quarter_length
                0 acme_inputs init_state acme_article [] [acme_article]
                65%N (lit "cme had a strong quarter.")
                eq_refl eq_refl eq_refl eq_refl eq_refl) as H.
  cbv zeta in H. destruct H as (_ & _ & _ & Hi & Hh & _).
  split; [exact Hi | exact Hh].
Defined.

Lemma estimate_is_for_page_level_text_witness :
  concat_text [ {| title := None; description := None; source := None; url := None |} ]
  <> concat_text [acme_article]
  /\ In (StInfo (lit "Estimated tokens for input (approx): " ++ str_of_Z 0))
        (widgets_of (run_handler changing_news answering_llm quarter_length 0
                       acme_inputs init_state))
  /\ calls (state_of (run_handler changing_news answering_llm quarter_length 0
                        acme_inputs init_state))
     = [FetchCall (lit "Acme Corp") 5; FetchCall (lit "Acme Corp") 5;
        LLMCall (concat_text [acme_article])].
Proof.
  split; [intros E; vm_compute in E; discriminate E|].
  exact (estimate_is_for_page_level_text changing_news answering_llm quarter_length
           0 acme_inputs init_state
           {| title := None; description := None; source := None; url := None |} []
           [acme_article] 0 eq_refl eq_refl eq_refl eq_refl eq_refl).
Defined.
